(** * Premier League dashboard: the loader and the aggregations of [app.py]

    A shallow embedding of the data pipeline of [src/app.py] -- [load_data]
    and the filters, group-bys and ratios the five pages compute -- with the
    properties the specification states about them.

    Modelling conventions.
    - A [DataFrame] is a header (the column labels, in order) and a list of
      rows.  Rows are typed records, one field per column of the dataset; a
      column that is missing from the header is never read, because every
      [df['label']] first looks the label up in the header and raises
      [KeyError] when it is absent.
    - [int64] columns hold integers of [Z]; arithmetic on them wraps around
      ([wrap64]).  [float64] columns with missing values hold [option Z]
      ([None] is NaN); the counts they carry are integers that a double
      represents exactly.  Python's own [int] ([len(...)]) is unbounded.
    - The two true divisions of the program (performance percentage and
      efficiency) are kept as exact rationals of [Q]; the rounding of the
      IEEE quotient is not modelled.
    - Python exceptions are values of [exn]; code that may raise returns a
      [result]. *)

From Stdlib Require Import ZArith QArith List String Ascii Bool Lia.
From Stdlib Require Import Permutation Sorted RelationClasses OrdersEx.
Import ListNotations.

Open Scope string_scope.
Open Scope Z_scope.

(* ------------------------------------------------------------------ *)
(** ** Exceptions and results *)

Inductive exn : Type :=
| KeyError (labels : list string)
| ValueError (value : string)
| OutOfBoundsDatetime (value : string)
| ZeroDivisionError.

Inductive result (A : Type) : Type :=
| Ok (a : A)
| Raise (e : exn).

Arguments Ok {A} a.
Arguments Raise {A} e.

Definition bind {A B : Type} (m : result A) (k : A -> result B) : result B :=
  match m with
  | Ok a => k a
  | Raise e => Raise e
  end.

Notation "x <- m ;; k" := (bind m (fun x => k))
  (at level 61, m at next level, right associativity).
Notation "m ;;; k" := (bind m (fun _ => k))
  (at level 61, right associativity).

Fixpoint mapM {A B : Type} (f : A -> result B) (l : list A) : result (list B) :=
  match l with
  | [] => Ok []
  | a :: l' => b <- f a ;; bs <- mapM f l' ;; Ok (b :: bs)
  end.

Definition is_ok {A : Type} (m : result A) : bool :=
  match m with Ok _ => true | Raise _ => false end.

(* ------------------------------------------------------------------ *)
(** ** Machine integers of NumPy *)

Definition int64_min : Z := - 2 ^ 63.
Definition int64_max : Z := 2 ^ 63 - 1.

Definition wrap64 (z : Z) : Z := (z + 2 ^ 63) mod 2 ^ 64 - 2 ^ 63.

Definition in_int64 (z : Z) : Prop := int64_min <= z <= int64_max.

(** [Series.sum()] of an [int64] column. *)
Definition sum_int64 (l : list Z) : Z := wrap64 (fold_right Z.add 0 l).

(** [Series.sum()] of a [float64] column: missing values are skipped. *)
Definition nan_to_zero (c : option Z) : Z :=
  match c with Some z => z | None => 0 end.

Definition sum_float (l : list (option Z)) : Z :=
  fold_right Z.add 0 (map nan_to_zero l).

(** [a + b] on two [float64] columns: NaN propagates. *)
Definition add_float (a b : option Z) : option Z :=
  match a, b with
  | Some x, Some y => Some (x + y)
  | _, _ => None
  end.

Definition isnull {A : Type} (c : option A) : bool :=
  match c with Some _ => false | None => true end.

(** Python's [len]. *)
Definition len {A : Type} (l : list A) : Z := Z.of_nat (List.length l).

(* ------------------------------------------------------------------ *)
(** ** Sorting

    A stable insertion sort for a boolean order: equal keys keep their
    relative order, as pandas' multi-key [sort_values] and the sorted group
    keys of [groupby] do. *)

Fixpoint insert_sorted {A : Type} (leb : A -> A -> bool) (a : A) (l : list A)
  : list A :=
  match l with
  | [] => [a]
  | b :: l' => if leb a b then a :: l else b :: insert_sorted leb a l'
  end.

Fixpoint sort_by {A : Type} (leb : A -> A -> bool) (l : list A) : list A :=
  match l with
  | [] => []
  | a :: l' => insert_sorted leb a (sort_by leb l')
  end.

Definition str_mem (s : string) (l : list string) : bool :=
  existsb (String.eqb s) l.

(** The distinct values of a list in order of first appearance. *)
Fixpoint unique_by {A : Type} (eqb : A -> A -> bool) (l : list A) : list A :=
  match l with
  | [] => []
  | a :: l' => a :: filter (fun x => negb (eqb x a)) (unique_by eqb l')
  end.

(** [Series.unique()] on a column of strings. *)
Definition unique (l : list string) : list string := unique_by String.eqb l.

(** Python's [sorted] on strings (code-point order, which is the byte
    order of UTF-8). *)
Definition sorted (l : list string) : list string := sort_by String.leb l.

(* ------------------------------------------------------------------ *)
(** ** The source table: what [pd.read_csv("England CSV.csv")] returns *)

(** One record of the file.  The goal columns are [int64]; the twelve
    in-match statistics are absent for the early seasons and are read as
    [float64] with NaN; the referee may be missing. *)
Record RawRow : Type := {
  Date : option string;
  Season : string;
  HomeTeam : string;
  AwayTeam : string;
  FTH_Goals : Z;
  FTA_Goals : Z;
  FT_Result : string;
  HTH_Goals : option Z;
  HTA_Goals : option Z;
  HT_Result : option string;
  H_Shots : option Z;
  A_Shots : option Z;
  H_SOT : option Z;
  A_SOT : option Z;
  H_Fouls : option Z;
  A_Fouls : option Z;
  H_Corners : option Z;
  A_Corners : option Z;
  H_Yellow : option Z;
  A_Yellow : option Z;
  H_Red : option Z;
  A_Red : option Z;
  Referee : option string
}.

Record RawFrame : Type := {
  raw_columns : list string;
  raw_rows : list RawRow
}.

(** The [columns=] dictionary of [df.rename]: labels outside the dictionary
    are kept, and a key that is not a column is ignored. *)
Definition rename_table : list (string * string) :=
  [ ("Date", "Data"); ("Season", "Temporada"); ("HomeTeam", "Time_Casa");
    ("AwayTeam", "Time_Visitante");
    ("FTH Goals", "Gols_Time_Casa"); ("FTA Goals", "Gols_Time_Visitante");
    ("FT Result", "Resultado_Final");
    ("HTH Goals", "Gols_Casa_1T"); ("HTA Goals", "Gols_Visitante_1T");
    ("HT Result", "Resultado_1T");
    ("H Shots", "Chutes_Casa"); ("A Shots", "Chutes_Visitante");
    ("H SOT", "Chutes_Gol_Casa"); ("A SOT", "Chutes_Gol_Visitante");
    ("H Fouls", "Faltas_Casa"); ("A Fouls", "Faltas_Visitante");
    ("H Corners", "Escanteios_Casa"); ("A Corners", "Escanteios_Visitante");
    ("H Yellow", "Amarelos_Casa"); ("A Yellow", "Amarelos_Visitante");
    ("H Red", "Vermelhos_Casa"); ("A Red", "Vermelhos_Visitante");
    ("Referee", "Árbitro") ].

Fixpoint dict_get (d : list (string * string)) (k : string) : option string :=
  match d with
  | [] => None
  | (k', v) :: d' => if String.eqb k k' then Some v else dict_get d' k
  end.

Definition rename (d : list (string * string)) (label : string) : string :=
  match dict_get d label with
  | Some v => v
  | None => label
  end.

(** [df[label]]: the label must be a column. *)
Definition getitem (columns : list string) (label : string) : result unit :=
  if str_mem label columns then Ok tt else Raise (KeyError [label]).

(** [df[[l1; ...; ln]]]: every label must be a column; the error lists the
    missing ones. *)
Definition getitems (columns : list string) (labels : list string)
  : result unit :=
  match filter (fun l => negb (str_mem l columns)) labels with
  | [] => Ok tt
  | missing => Raise (KeyError missing)
  end.

(** [df[label] = ...]: an existing column is overwritten in place, a new
    one is appended. *)
Definition setitem (columns : list string) (label : string) : list string :=
  if str_mem label columns then columns else columns ++ [label].

(* ------------------------------------------------------------------ *)
(** ** Dates: [pd.to_datetime(..., format='%d/%m/%Y')] *)

Record date : Type := { year : Z; month : Z; day : Z }.

Definition digit (c : ascii) : option Z :=
  let n := Z.of_N (N_of_ascii c) in
  if (48 <=? n) && (n <=? 57) then Some (n - 48) else None.

Fixpoint split_slash (cur : list ascii) (s : string) : list (list ascii) :=
  match s with
  | EmptyString => [rev cur]
  | String c s' =>
      if Ascii.eqb c "/"%char then rev cur :: split_slash [] s'
      else split_slash (c :: cur) s'
  end.

(** [%d]: [3[0-1]|[1-2]\d|0[1-9]|[1-9]| [1-9]]. *)
Definition directive_d (f : list ascii) : option Z :=
  match f with
  | [a] =>
      match digit a with
      | Some x => if 1 <=? x then Some x else None
      | None => None
      end
  | [a; b] =>
      match digit a, digit b with
      | Some x, Some y =>
          let v := 10 * x + y in
          if (1 <=? v) && (v <=? 31) then Some v else None
      | None, Some y =>
          if Ascii.eqb a " "%char && (1 <=? y) then Some y else None
      | _, _ => None
      end
  | _ => None
  end.

(** [%m]: [1[0-2]|0[1-9]|[1-9]]. *)
Definition directive_m (f : list ascii) : option Z :=
  match f with
  | [a] =>
      match digit a with
      | Some x => if 1 <=? x then Some x else None
      | None => None
      end
  | [a; b] =>
      match digit a, digit b with
      | Some x, Some y =>
          let v := 10 * x + y in
          if (1 <=? v) && (v <=? 12) then Some v else None
      | _, _ => None
      end
  | _ => None
  end.

(** [%Y]: four digits. *)
Definition directive_Y (f : list ascii) : option Z :=
  match f with
  | [a; b; c; d] =>
      match digit a, digit b, digit c, digit d with
      | Some x, Some y, Some z, Some w =>
          Some (1000 * x + 100 * y + 10 * z + w)
      | _, _, _, _ => None
      end
  | _ => None
  end.

Definition is_leap (y : Z) : bool :=
  ((y mod 4 =? 0) && negb (y mod 100 =? 0)) || (y mod 400 =? 0).

Definition days_in_month (y m : Z) : Z :=
  if m =? 2 then (if is_leap y then 29 else 28)
  else if (m =? 4) || (m =? 6) || (m =? 9) || (m =? 11) then 30
  else 31.

(** The dates a nanosecond timestamp can hold: 1677-09-22 to 2262-04-11. *)
Definition in_timestamp_bounds (d : date) : bool :=
  let n := year d * 10000 + month d * 100 + day d in
  (16770922 <=? n) && (n <=? 22620411).

Definition strptime (s : string) : result date :=
  match split_slash [] s with
  | [fd; fm; fy] =>
      match directive_d fd, directive_m fm, directive_Y fy with
      | Some d, Some m, Some y =>
          if (1 <=? y) && (d <=? days_in_month y m) then
            let dt := {| year := y; month := m; day := d |} in
            if in_timestamp_bounds dt then Ok dt
            else Raise (OutOfBoundsDatetime s)
          else Raise (ValueError s)
      | _, _, _ => Raise (ValueError s)
      end
  | _ => Raise (ValueError s)
  end.

(** A missing date becomes NaT; a present one must parse. *)
Definition to_datetime (c : option string) : result (option date) :=
  match c with
  | None => Ok None
  | Some s => d <- strptime s ;; Ok (Some d)
  end.

(* ------------------------------------------------------------------ *)
(** ** The loaded table *)

(** One row of the table [load_data] returns: the renamed columns, the
    derived ones, the two data-quality flags, and [Campeao], a column that
    only the hypothesis-test page adds ([None] while it is absent). *)
Record Match : Type := {
  Data : option date;
  Temporada : string;
  Time_Casa : string;
  Time_Visitante : string;
  Gols_Time_Casa : Z;
  Gols_Time_Visitante : Z;
  Resultado_Final : option string;
  Gols_Casa_1T : option Z;
  Gols_Visitante_1T : option Z;
  Resultado_1T : option string;
  Chutes_Casa : option Z;
  Chutes_Visitante : option Z;
  Chutes_Gol_Casa : option Z;
  Chutes_Gol_Visitante : option Z;
  Faltas_Casa : option Z;
  Faltas_Visitante : option Z;
  Escanteios_Casa : option Z;
  Escanteios_Visitante : option Z;
  Amarelos_Casa : option Z;
  Amarelos_Visitante : option Z;
  Vermelhos_Casa : option Z;
  Vermelhos_Visitante : option Z;
  Arbitro : string;
  Dif_Gols : Z;
  Total_Gols : Z;
  Vitoria_Casa : Z;
  Empate : Z;
  Vitoria_Visitante : Z;
  Intensidade_Ofensiva : option Z;
  Total_Faltas : option Z;
  Total_Vermelhos : option Z;
  Estatisticas_Completas : bool;
  Periodo_Completo : bool;
  Campeao : option bool
}.

Record DataFrame : Type := {
  columns : list string;
  rows : list Match
}.

(** [.astype(int)] on a boolean column. *)
Definition astype_int (b : bool) : Z := if b then 1 else 0.

Definition fillna (c : option string) (v : string) : string :=
  match c with Some s => s | None => v end.

(** [Series.replace(dict)]: a value that is a key is replaced, any other
    is kept. *)
Definition replace (d : list (string * string)) (v : string) : string :=
  match dict_get d v with
  | Some x => x
  | None => v
  end.

(** [Series.map(dict)]: a value that is not a key becomes NaN. *)
Definition result_labels : list (string * string) :=
  [ ("H", "Vitória Casa"); ("A", "Vitória Visitante"); ("D", "Empate") ].

Definition team_mapping : list (string * string) :=
  [ ("Brighton", "Brighton & Hove Albion"); ("Ipswich", "Ipswich Town") ].

(** The values of the twelve columns of [colunas_estatisticas], in the
    order of the list. *)
Definition colunas_estatisticas : list string :=
  [ "Chutes_Casa"; "Chutes_Visitante"; "Chutes_Gol_Casa";
    "Chutes_Gol_Visitante"; "Faltas_Casa"; "Faltas_Visitante";
    "Escanteios_Casa"; "Escanteios_Visitante"; "Amarelos_Casa";
    "Amarelos_Visitante"; "Vermelhos_Casa"; "Vermelhos_Visitante" ].

Definition raw_estatisticas (r : RawRow) : list (option Z) :=
  [ H_Shots r; A_Shots r; H_SOT r; A_SOT r; H_Fouls r; A_Fouls r;
    H_Corners r; A_Corners r; H_Yellow r; A_Yellow r; H_Red r; A_Red r ].

Definition estatisticas (r : Match) : list (option Z) :=
  [ Chutes_Casa r; Chutes_Visitante r; Chutes_Gol_Casa r;
    Chutes_Gol_Visitante r; Faltas_Casa r; Faltas_Visitante r;
    Escanteios_Casa r; Escanteios_Visitante r; Amarelos_Casa r;
    Amarelos_Visitante r; Vermelhos_Casa r; Vermelhos_Visitante r ].

(** The row-wise part of [load_data] (lines 36 to 77), given the parsed
    date of the row. *)
Definition features (r : RawRow) (d : option date) : Match :=
  {| Data := d;
     Temporada := Season r;
     Time_Casa := replace team_mapping (HomeTeam r);
     Time_Visitante := replace team_mapping (AwayTeam r);
     Gols_Time_Casa := FTH_Goals r;
     Gols_Time_Visitante := FTA_Goals r;
     Resultado_Final := dict_get result_labels (FT_Result r);
     Gols_Casa_1T := HTH_Goals r;
     Gols_Visitante_1T := HTA_Goals r;
     Resultado_1T := HT_Result r;
     Chutes_Casa := H_Shots r;
     Chutes_Visitante := A_Shots r;
     Chutes_Gol_Casa := H_SOT r;
     Chutes_Gol_Visitante := A_SOT r;
     Faltas_Casa := H_Fouls r;
     Faltas_Visitante := A_Fouls r;
     Escanteios_Casa := H_Corners r;
     Escanteios_Visitante := A_Corners r;
     Amarelos_Casa := H_Yellow r;
     Amarelos_Visitante := A_Yellow r;
     Vermelhos_Casa := H_Red r;
     Vermelhos_Visitante := A_Red r;
     Arbitro := fillna (Referee r) "Desconhecido";
     Dif_Gols := wrap64 (FTH_Goals r - FTA_Goals r);
     Total_Gols := wrap64 (FTH_Goals r + FTA_Goals r);
     Vitoria_Casa := astype_int (FTH_Goals r >? FTA_Goals r);
     Empate := astype_int (FTH_Goals r =? FTA_Goals r);
     Vitoria_Visitante := astype_int (FTH_Goals r <? FTA_Goals r);
     Intensidade_Ofensiva := add_float (H_SOT r) (A_SOT r);
     Total_Faltas := add_float (H_Fouls r) (A_Fouls r);
     Total_Vermelhos := add_float (H_Red r) (A_Red r);
     Estatisticas_Completas := negb (existsb isnull (raw_estatisticas r));
     Periodo_Completo := String.leb "2000/01" (Season r);
     Campeao := None |}.

(** One assignment [df[label] = f(df[r1], ..., df[rn])] seen from the
    header: the columns read must exist, the column written is created
    when it is new. *)
Definition assign (columns : list string) (reads : list string)
  (label : string) : result (list string) :=
  mapM (getitem columns) reads ;;; Ok (setitem columns label).

(** [load_data] (lines 32 to 79), applied to the table read from the file.
    The header is threaded through the statements in program order, so that
    the first statement that reads a missing column raises; the only other
    failure is a date that does not parse (line 61). *)
Definition load_data (csv : RawFrame) : result DataFrame :=
  c <- assign (raw_columns csv) ["Referee"] "Referee" ;;
  let c := map (rename rename_table) c in
  c <- assign c ["Gols_Time_Casa"; "Gols_Time_Visitante"] "Dif_Gols" ;;
  c <- assign c ["Gols_Time_Casa"; "Gols_Time_Visitante"] "Total_Gols" ;;
  c <- assign c ["Gols_Time_Casa"; "Gols_Time_Visitante"] "Vitoria_Casa" ;;
  c <- assign c ["Gols_Time_Casa"; "Gols_Time_Visitante"] "Empate" ;;
  c <- assign c ["Gols_Time_Casa"; "Gols_Time_Visitante"]
         "Vitoria_Visitante" ;;
  c <- assign c ["Chutes_Gol_Casa"; "Chutes_Gol_Visitante"]
         "Intensidade_Ofensiva" ;;
  c <- assign c ["Faltas_Casa"; "Faltas_Visitante"] "Total_Faltas" ;;
  c <- assign c ["Vermelhos_Casa"; "Vermelhos_Visitante"]
         "Total_Vermelhos" ;;
  c <- assign c ["Data"] "Data" ;;
  datas <- mapM to_datetime (map Date (raw_rows csv)) ;;
  c <- assign c ["Resultado_Final"] "Resultado_Final" ;;
  c <- assign c ["Time_Casa"] "Time_Casa" ;;
  c <- assign c ["Time_Visitante"] "Time_Visitante" ;;
  getitems c colunas_estatisticas ;;;
  let c := setitem c "Estatisticas_Completas" in
  c <- assign c ["Temporada"] "Periodo_Completo" ;;
  Ok {| columns := c;
        rows := map (fun rd => features (fst rd) (snd rd))
                    (combine (raw_rows csv) datas) |}.

(* ------------------------------------------------------------------ *)
(** ** Slices *)

(** [df[mask]]: a new frame with the same header and the selected rows. *)
Definition mask (p : Match -> bool) (df : DataFrame) : DataFrame :=
  {| columns := columns df; rows := filter p (rows df) |}.

(** [df.copy()]: a new frame with the same content. *)
Definition copy (df : DataFrame) : DataFrame :=
  {| columns := columns df; rows := rows df |}.

(** [series == label] on a column of labels: NaN equals nothing. *)
Definition label_is (c : option string) (label : string) : bool :=
  match c with
  | Some s => String.eqb s label
  | None => false
  end.

Inductive escopo : Type :=
| Historica_Completa
| Detalhadas_Pos_2000.

(** Lines 93 to 98: the working copy every page reads. *)
Definition select_df_analise (analise_tipo : escopo) (df : DataFrame)
  : DataFrame :=
  match analise_tipo with
  | Detalhadas_Pos_2000 => copy (mask Periodo_Completo df)
  | Historica_Completa => copy df
  end.

(** Lines 557 and 722: the options of the team select boxes. *)
Definition todos_times (df_analise : DataFrame) : list string :=
  sorted (unique (unique (map Time_Casa (rows df_analise))
                  ++ unique (map Time_Visitante (rows df_analise)))).

(* ------------------------------------------------------------------ *)
(** ** Performance percentage (pages 4 and 5) *)

Definition joga (time : string) (r : Match) : bool :=
  String.eqb (Time_Casa r) time || String.eqb (Time_Visitante r) time.

Definition venceu (time : string) (r : Match) : bool :=
  (String.eqb (Time_Casa r) time
   && label_is (Resultado_Final r) "Vitória Casa")
  || (String.eqb (Time_Visitante r) time
      && label_is (Resultado_Final r) "Vitória Visitante").

Definition empatou (r : Match) : bool :=
  label_is (Resultado_Final r) "Empate".

(** Lines 563, 726 and 727. *)
Definition jogos_time (df_analise : DataFrame) (time : string) : DataFrame :=
  mask (joga time) df_analise.

(** Lines 572 to 575. *)
Definition vitorias (time : string) (jogos : DataFrame) : Z :=
  len (rows (mask (venceu time) jogos)).

(** Line 579. *)
Definition empates (jogos : DataFrame) : Z :=
  len (rows (mask empatou jogos)).

(** [(v * 3 + e) / (n * 3) * 100] on Python integers: [/] is the true
    division, which raises [ZeroDivisionError] on a zero divisor. *)
Definition percentual (v e n : Z) : result Q :=
  if n * 3 =? 0 then Raise ZeroDivisionError
  else Ok (inject_Z (v * 3 + e) / inject_Z (n * 3) * inject_Z 100)%Q.

(** Line 582 ([aproveitamento]) and lines 769 and 770 ([ap_time1],
    [ap_time2]): the same expression on the games of the selected team. *)
Definition aproveitamento (df_analise : DataFrame) (time : string)
  : result Q :=
  let jogos := jogos_time df_analise time in
  percentual (vitorias time jogos) (empates jogos) (len (rows jogos)).

Record performance_row : Type := {
  perf_Temporada : string;
  perf_Vitorias : Z;
  perf_Jogos : Z;
  perf_Aproveitamento : Q
}.

(** Lines 593 to 604: one entry per season the team played in. *)
Definition performance_data (df_analise : DataFrame) (time : string)
  : result (list performance_row) :=
  let jogos := jogos_time df_analise time in
  mapM (fun temp =>
          let jogos_temp := mask (fun r => String.eqb (Temporada r) temp)
                                 jogos in
          let vitorias_temp := vitorias time jogos_temp in
          ap <- percentual vitorias_temp (empates jogos_temp)
                  (len (rows jogos_temp)) ;;
          Ok {| perf_Temporada := temp;
                perf_Vitorias := vitorias_temp;
                perf_Jogos := len (rows jogos_temp);
                perf_Aproveitamento := ap |})
       (sorted (unique (map Temporada (rows jogos)))).

(** Lines 846 to 868, for one of the two teams: the seasons of the whole
    slice are visited, and a season without a game of the team is skipped
    by the guard [if len(jogos_temp) > 0]. *)
Fixpoint evolucao_loop (jogos : DataFrame) (time : string)
  (temporadas : list string) : result (list (string * string * Q)) :=
  match temporadas with
  | [] => Ok []
  | temp :: rest =>
      let jogos_temp := mask (fun r => String.eqb (Temporada r) temp)
                             jogos in
      if len (rows jogos_temp) >? 0 then
        ap <- percentual (vitorias time jogos_temp) (empates jogos_temp)
                (len (rows jogos_temp)) ;;
        tl <- evolucao_loop jogos time rest ;;
        Ok ((temp, time, ap) :: tl)
      else evolucao_loop jogos time rest
  end.

Definition evolucao_data (df_analise : DataFrame) (time : string)
  : result (list (string * string * Q)) :=
  evolucao_loop (jogos_time df_analise time) time
    (sorted (unique (map Temporada (rows df_analise)))).

(* ------------------------------------------------------------------ *)
(** ** Efficiency (lines 637 to 656 and 799 to 821) *)

Definition em_casa (time : string) (r : Match) : bool :=
  String.eqb (Time_Casa r) time.

Definition fora (time : string) (r : Match) : bool :=
  String.eqb (Time_Visitante r) time.

Definition gols_marcados (time : string) (jogos : DataFrame) : Z :=
  wrap64 (sum_int64 (map Gols_Time_Casa (rows (mask (em_casa time) jogos)))
          + sum_int64 (map Gols_Time_Visitante
                         (rows (mask (fora time) jogos)))).

Definition gols_sofridos (time : string) (jogos : DataFrame) : Z :=
  wrap64 (sum_int64 (map Gols_Time_Visitante
                       (rows (mask (em_casa time) jogos)))
          + sum_int64 (map Gols_Time_Casa (rows (mask (fora time) jogos)))).

Definition chutes_gol_feitos (time : string) (jogos : DataFrame) : Z :=
  sum_float (map Chutes_Gol_Casa (rows (mask (em_casa time) jogos)))
  + sum_float (map Chutes_Gol_Visitante (rows (mask (fora time) jogos))).

Definition cartoes_amarelos (time : string) (jogos : DataFrame) : Z :=
  sum_float (map Amarelos_Casa (rows (mask (em_casa time) jogos)))
  + sum_float (map Amarelos_Visitante (rows (mask (fora time) jogos))).

(** [(g / c * 100) if c > 0 else 0]. *)
Definition razao_eficiencia (g c : Z) : Q :=
  if c >? 0 then (inject_Z g / inject_Z c * inject_Z 100)%Q else 0%Q.

(** Line 656. *)
Definition eficiencia (time : string) (jogos : DataFrame) : Q :=
  razao_eficiencia (gols_marcados time jogos) (chutes_gol_feitos time jogos).

Record estatisticas_avancadas : Type := {
  Eficiencia : Q;
  Chutes_a_Gol : Z;
  Cartoes_Amarelos : Z
}.

(** Lines 799 to 821. *)
Definition calcular_estatisticas_avancadas (time : string) (df : DataFrame)
  : estatisticas_avancadas :=
  let jogos := mask (joga time) df in
  {| Eficiencia := eficiencia time jogos;
     Chutes_a_Gol := chutes_gol_feitos time jogos;
     Cartoes_Amarelos := cartoes_amarelos time jogos |}.

(* ------------------------------------------------------------------ *)
(** ** Head-to-head (lines 682 to 710) *)

Definition confrontos (df_analise : DataFrame) (time adversario : string)
  : DataFrame :=
  mask (fun r => (em_casa time r && fora adversario r)
                 || (em_casa adversario r && fora time r))
       df_analise.

(** What the tab shows: the three counters, or the information message of
    the [else] branch.  The listing of the last five games is presentation
    and is left out. *)
Inductive confrontos_view : Type :=
| Placar (vitorias_time empates_confronto vitorias_adversario : Z)
| Nenhum_confronto (info : string).

Definition confrontos_diretos (df_analise : DataFrame)
  (time adversario : string) : confrontos_view :=
  let c := confrontos df_analise time adversario in
  if len (rows c) >? 0 then
    let vitorias_time := vitorias time c in
    Placar vitorias_time (empates c)
           (len (rows c) - vitorias_time - empates c)
  else Nenhum_confronto "Nenhum confronto encontrado entre estes times.".

(* ------------------------------------------------------------------ *)
(** ** Group-bys and team totals (lines 199 to 300) *)

(** A [Series] indexed by strings. *)
Definition Series (V : Type) : Type := list (string * V).

Fixpoint series_get {V : Type} (s : Series V) (k : string) : option V :=
  match s with
  | [] => None
  | (k', v) :: s' => if String.eqb k k' then Some v else series_get s' k
  end.

(** [df.groupby(key)[column].agg()]: one entry per distinct key, the keys
    sorted, the aggregate taken over the rows of the group. *)
Definition groupby {V : Type} (key : Match -> string)
  (agg : list Match -> V) (df : DataFrame) : Series V :=
  map (fun k => (k, agg (filter (fun r => String.eqb (key r) k) (rows df))))
      (sorted (unique (map key (rows df)))).

(** [a.add(b, fill_value=0)]: the index is the sorted union of the two
    indexes; a label missing on one side counts as zero there.  (When a
    label is missing pandas carries the sums as [float64], which holds
    these integers exactly; the model keeps the integers.) *)
Definition series_add (plus : Z -> Z -> Z) (a b : Series Z) : Series Z :=
  map (fun k =>
         (k, plus (match series_get a k with Some x => x | None => 0 end)
                  (match series_get b k with Some y => y | None => 0 end)))
      (sorted (unique (map fst a ++ map fst b))).

Definition add_int64 (x y : Z) : Z := wrap64 (x + y).

(** [.sort_values(ascending=False).head(15)].  The order pandas gives to
    equal values is not specified; the model keeps them in index order. *)
Definition top15 (s : Series Z) : Series Z :=
  firstn 15 (sort_by (fun a b => snd b <=? snd a) s).

(** Line 199. *)
Definition df_filtrado (df_analise : DataFrame) (temporada_min : string)
  : DataFrame :=
  mask (fun r => String.leb temporada_min (Temporada r)) df_analise.

(** Lines 275 to 277, before and after the cut to fifteen teams. *)
Definition gols_casa (d : DataFrame) : Series Z :=
  groupby Time_Casa (fun g => sum_int64 (map Gols_Time_Casa g)) d.

Definition gols_visitante (d : DataFrame) : Series Z :=
  groupby Time_Visitante (fun g => sum_int64 (map Gols_Time_Visitante g)) d.

Definition gols_somados (d : DataFrame) : Series Z :=
  series_add add_int64 (gols_casa d) (gols_visitante d).

Definition gols_totais (d : DataFrame) : Series Z :=
  top15 (gols_somados d).

(** Lines 284 to 286. *)
Definition amarelos_casa (d : DataFrame) : Series Z :=
  groupby Time_Casa (fun g => sum_float (map Amarelos_Casa g)) d.

Definition amarelos_visitante (d : DataFrame) : Series Z :=
  groupby Time_Visitante (fun g => sum_float (map Amarelos_Visitante g)) d.

Definition amarelos_somados (d : DataFrame) : Series Z :=
  series_add Z.add (amarelos_casa d) (amarelos_visitante d).


(** Line 209: the mean of the total goals of each season. *)
Definition mean_int64 (l : list Z) : Q :=
  Qdiv (inject_Z (fold_right Z.add 0 l)) (inject_Z (len l)).

Definition gols_por_temp (d : DataFrame) : Series Q :=
  groupby Temporada (fun g => mean_int64 (map Total_Gols g)) d.

(* ------------------------------------------------------------------ *)
(** ** Champions (lines 400 to 406) *)

(** A row of the frame [champions]: season, home team, home wins. *)
Record champion_row : Type := {
  ch_Temporada : string;
  ch_Time_Casa : string;
  ch_Vitoria_Casa : Z
}.

Definition pair_eqb (a b : string * string) : bool :=
  String.eqb (fst a) (fst b) && String.eqb (snd a) (snd b).

(** The order of the group keys of a two-column [groupby]. *)
Definition pair_leb (a b : string * string) : bool :=
  match String.compare (fst a) (fst b) with
  | Lt => true
  | Eq => String.leb (snd a) (snd b)
  | Gt => false
  end.

(** Line 400:
    [groupby(['Temporada', 'Time_Casa'])['Vitoria_Casa'].sum().reset_index()]. *)
Definition vitorias_casa_por_temporada (d : DataFrame) : list champion_row :=
  map (fun k =>
         {| ch_Temporada := fst k;
            ch_Time_Casa := snd k;
            ch_Vitoria_Casa :=
              sum_int64
                (map Vitoria_Casa
                   (filter (fun r => pair_eqb (Temporada r, Time_Casa r) k)
                      (rows d))) |})
      (sort_by pair_leb
         (unique_by pair_eqb
            (map (fun r => (Temporada r, Time_Casa r)) (rows d)))).

(** Line 401: [sort_values(['Temporada', 'Vitoria_Casa'],
    ascending=[True, False])], a stable sort. *)
Definition champion_leb (a b : champion_row) : bool :=
  match String.compare (ch_Temporada a) (ch_Temporada b) with
  | Lt => true
  | Eq => ch_Vitoria_Casa b <=? ch_Vitoria_Casa a
  | Gt => false
  end.

(** Line 402: [groupby('Temporada').head(1)], the first row of every
    season in the order of the frame. *)
Fixpoint head1 (seen : list string) (l : list champion_row)
  : list champion_row :=
  match l with
  | [] => []
  | x :: l' =>
      if str_mem (ch_Temporada x) seen then head1 seen l'
      else x :: head1 (ch_Temporada x :: seen) l'
  end.

Definition champions (d : DataFrame) : list champion_row :=
  head1 [] (sort_by champion_leb (vitorias_casa_por_temporada d)).

Definition set_Campeao (v : bool) (r : Match) : Match :=
  {| Data := Data r;
     Temporada := Temporada r;
     Time_Casa := Time_Casa r;
     Time_Visitante := Time_Visitante r;
     Gols_Time_Casa := Gols_Time_Casa r;
     Gols_Time_Visitante := Gols_Time_Visitante r;
     Resultado_Final := Resultado_Final r;
     Gols_Casa_1T := Gols_Casa_1T r;
     Gols_Visitante_1T := Gols_Visitante_1T r;
     Resultado_1T := Resultado_1T r;
     Chutes_Casa := Chutes_Casa r;
     Chutes_Visitante := Chutes_Visitante r;
     Chutes_Gol_Casa := Chutes_Gol_Casa r;
     Chutes_Gol_Visitante := Chutes_Gol_Visitante r;
     Faltas_Casa := Faltas_Casa r;
     Faltas_Visitante := Faltas_Visitante r;
     Escanteios_Casa := Escanteios_Casa r;
     Escanteios_Visitante := Escanteios_Visitante r;
     Amarelos_Casa := Amarelos_Casa r;
     Amarelos_Visitante := Amarelos_Visitante r;
     Vermelhos_Casa := Vermelhos_Casa r;
     Vermelhos_Visitante := Vermelhos_Visitante r;
     Arbitro := Arbitro r;
     Dif_Gols := Dif_Gols r;
     Total_Gols := Total_Gols r;
     Vitoria_Casa := Vitoria_Casa r;
     Empate := Empate r;
     Vitoria_Visitante := Vitoria_Visitante r;
     Intensidade_Ofensiva := Intensidade_Ofensiva r;
     Total_Faltas := Total_Faltas r;
     Total_Vermelhos := Total_Vermelhos r;
     Estatisticas_Completas := Estatisticas_Completas r;
     Periodo_Completo := Periodo_Completo r;
     Campeao := Some v |}.

(** [Series.isin(champions['Time_Casa'])] for one team. *)
Definition e_campeao (d : DataFrame) (time : string) : bool :=
  str_mem time (map ch_Time_Casa (champions d)).

(** Line 403: [df_analise['Campeao'] = df_analise['Time_Casa'].isin(...)],
    an assignment into the frame [df_analise] itself. *)
Definition marcar_campeoes (d : DataFrame) : DataFrame :=
  {| columns := setitem (columns d) "Campeao";
     rows := map (fun r => set_Campeao (e_campeao d (Time_Casa r)) r)
                 (rows d) |}.

Definition truthy (c : option bool) : bool :=
  match c with Some b => b | None => false end.

(** Lines 405 and 406: the two samples of the t-test. *)
Definition gols_campeoes (d : DataFrame) : list Z :=
  map Gols_Time_Casa (rows (mask (fun r => truthy (Campeao r)) d)).

Definition gols_outros (d : DataFrame) : list Z :=
  map Gols_Time_Casa (rows (mask (fun r => negb (truthy (Campeao r))) d)).

(* ------------------------------------------------------------------ *)
(** ** One run of the script

    The script holds two frames: [df], the value [load_data()] returned,
    and [df_analise], built from it by [.copy()] (lines 93 to 98).  They are
    two objects: an assignment into one is not seen through the other. *)

Record Session : Type := {
  df : DataFrame;
  df_analise : DataFrame
}.

Definition iniciar (analise_tipo : escopo) (loaded : DataFrame) : Session :=
  {| df := loaded; df_analise := select_df_analise analise_tipo loaded |}.

(** The aggregations of the pages, with the selections they depend on. *)
Inductive aggregation : Type :=
| Media_Por_Temporada (temporada_min : string)
| Total_Por_Time (temporada_min : string)
| Campeoes
| Confrontos_Diretos (time adversario : string)
| Aproveitamento_Time (time : string)
| Eficiencia_Time (time : string).

Inductive output : Type :=
| Out_Medias (s : Series Q)
| Out_Totais (s : Series Z)
| Out_Amostras (campeoes outros : list Z)
| Out_Confrontos (c : DataFrame) (v : confrontos_view)
| Out_Aproveitamento (a : result Q)
| Out_Eficiencia (e : Q).

(** What each aggregation computes and the session it leaves behind. *)
Definition run (a : aggregation) (s : Session) : output * Session :=
  match a with
  | Media_Por_Temporada temporada_min =>
      (Out_Medias (gols_por_temp (df_filtrado (df_analise s) temporada_min)),
       s)
  | Total_Por_Time temporada_min =>
      (Out_Totais (gols_totais (df_filtrado (df_analise s) temporada_min)),
       s)
  | Campeoes =>
      let marcado := marcar_campeoes (df_analise s) in
      (Out_Amostras (gols_campeoes marcado) (gols_outros marcado),
       {| df := df s; df_analise := marcado |})
  | Confrontos_Diretos time adversario =>
      (Out_Confrontos (confrontos (df_analise s) time adversario)
                      (confrontos_diretos (df_analise s) time adversario),
       s)
  | Aproveitamento_Time time =>
      (Out_Aproveitamento (aproveitamento (df_analise s) time), s)
  | Eficiencia_Time time =>
      (Out_Eficiencia (eficiencia time (jogos_time (df_analise s) time)), s)
  end.

(* ------------------------------------------------------------------ *)
(** ** Sample data *)

Definition cabecalho : list string := map fst rename_table.

Definition partida (data temporada casa visitante : string)
  (gols_c gols_v : Z) (codigo : string) (sot_c sot_v : option Z) : RawRow :=
  {| Date := Some data; Season := temporada;
     HomeTeam := casa; AwayTeam := visitante;
     FTH_Goals := gols_c; FTA_Goals := gols_v; FT_Result := codigo;
     HTH_Goals := None; HTA_Goals := None; HT_Result := None;
     H_Shots := sot_c; A_Shots := sot_v; H_SOT := sot_c; A_SOT := sot_v;
     H_Fouls := sot_c; A_Fouls := sot_v;
     H_Corners := sot_c; A_Corners := sot_v;
     H_Yellow := sot_c; A_Yellow := sot_v; H_Red := sot_c; A_Red := sot_v;
     Referee := None |}.

(** Two seasons: Arsenal wins its home games of the first, Brighton
    (stored under its old name in the file) those of the second. *)
Definition csv_exemplo : RawFrame :=
  {| raw_columns := cabecalho;
     raw_rows :=
       [ partida "14/08/1999" "1999/00" "Arsenal" "Chelsea" 2 0 "H" None None;
         partida "21/08/1999" "1999/00" "Chelsea" "Arsenal" 1 1 "D" None None;
         partida "19/08/2000" "2000/01" "Brighton" "Arsenal" 3 1 "H"
                 (Some 5) (Some 2);
         partida "26/08/2000" "2000/01" "Arsenal" "Brighton" 0 1 "A"
                 (Some 4) (Some 3);
         partida "02/09/2000" "2000/01" "Chelsea" "Ipswich" 0 0 "D"
                 (Some 1) None ] |}.

Definition df_exemplo : DataFrame :=
  match load_data csv_exemplo with
  | Ok d => d
  | Raise _ => {| columns := []; rows := [] |}
  end.


(* ------------------------------------------------------------------ *)
(** ** Vocabulary of the properties and further sample data *)

(** The columns of the renamed header that [load_data] reads. *)
Definition colunas_lidas : list string :=
  [ "Gols_Time_Casa"; "Gols_Time_Visitante";
    "Data"; "Resultado_Final"; "Time_Casa"; "Time_Visitante"; "Temporada" ]
  ++ colunas_estatisticas.

(** The header and the dates are all that decides whether the load
    succeeds. *)
Definition cabecalho_completo (csv : RawFrame) : Prop :=
  str_mem "Referee" (raw_columns csv) = true
  /\ Forall (fun l => str_mem l (map (rename rename_table) (raw_columns csv))
                      = true) colunas_lidas.

(** Every date of the file parses (a missing date counts as parsed). *)
Definition datas_validas (csv : RawFrame) : Prop :=
  exists datas, mapM to_datetime (map Date (raw_rows csv)) = Ok datas.

(** The rows of the loaded table, given the parsed dates. *)
Definition carregado (csv : RawFrame) (datas : list (option date))
  : list Match :=
  map (fun rd => features (fst rd) (snd rd)) (combine (raw_rows csv) datas).

(** The source fields [load_data] reads, under the names of the file. *)
Definition campos_lidos : list string :=
  [ "Referee"; "Date"; "Season"; "HomeTeam"; "AwayTeam";
    "FTH Goals"; "FTA Goals"; "FT Result";
    "H Shots"; "A Shots"; "H SOT"; "A SOT"; "H Fouls"; "A Fouls";
    "H Corners"; "A Corners"; "H Yellow"; "A Yellow"; "H Red"; "A Red" ].

(** The result codes the dictionary of line 62 knows. *)
Definition codigo_valido (codigo : string) : bool :=
  str_mem codigo ["H"; "A"; "D"].

(** No label occurs twice. *)
Fixpoint distinct (l : list string) : bool :=
  match l with
  | [] => true
  | a :: l' => negb (str_mem a l') && distinct l'
  end.

(** A file with a full header and one record whose result code is not one
    of H, A, D. *)
Definition csv_codigo_invalido : RawFrame :=
  {| raw_columns := cabecalho;
     raw_rows :=
       [ partida "14/08/1999" "1999/00" "Arsenal" "Chelsea" 2 0 "X"
                 None None ] |}.

(** A file without the column of the full-time result. *)
Definition csv_sem_resultado : RawFrame :=
  {| raw_columns :=
       filter (fun l => negb (String.eqb l "FT Result")) cabecalho;
     raw_rows := raw_rows csv_exemplo |}.

(** A file without the three half-time columns, which are renamed but
    never read. *)
Definition csv_sem_intervalo : RawFrame :=
  {| raw_columns :=
       filter (fun l => negb (str_mem l ["HTH Goals"; "HTA Goals";
                                         "HT Result"])) cabecalho;
     raw_rows := raw_rows csv_exemplo |}.

(** The goal columns of the file hold the scores of football games:
    non-negative integers that fit an [int64] column. *)
Definition gols_validos (raw : RawRow) : Prop :=
  0 <= FTH_Goals raw <= int64_max /\ 0 <= FTA_Goals raw <= int64_max.

(** The equations [load_data] establishes between the derived columns of a
    row and its goals; every page works on rows that satisfy them. *)
Definition derivadas_ok (r : Match) : Prop :=
  Vitoria_Casa r = astype_int (Gols_Time_Casa r >? Gols_Time_Visitante r)
  /\ Empate r = astype_int (Gols_Time_Casa r =? Gols_Time_Visitante r)
  /\ Vitoria_Visitante r
     = astype_int (Gols_Time_Casa r <? Gols_Time_Visitante r)
  /\ Dif_Gols r = wrap64 (Gols_Time_Casa r - Gols_Time_Visitante r)
  /\ Total_Gols r = wrap64 (Gols_Time_Casa r + Gols_Time_Visitante r)
  /\ Estatisticas_Completas r = negb (existsb isnull (estatisticas r)).

(** Several aggregations, one after the other, in one run of the script. *)
Definition run_all (l : list aggregation) (s : Session) : Session :=
  fold_left (fun st a => snd (run a st)) l s.

(** Team [t] has a home game in season [s] of the slice. *)
Definition joga_em_casa (d : DataFrame) (s t : string) : Prop :=
  exists r, In r (rows d) /\ Temporada r = s /\ Time_Casa r = t.







(** When two teams share the largest count of a season only one of them is
    selected: the first in the order of the group keys. *)
Definition csv_empatado : RawFrame :=
  {| raw_columns := cabecalho;
     raw_rows :=
       [ partida "14/08/1999" "1999/00" "Chelsea" "Arsenal" 1 0 "H" None None;
         partida "21/08/1999" "1999/00" "Arsenal" "Chelsea" 2 1 "H"
                 None None ] |}.

(** The merge of the two role series of lines 275 to 300, for any
    addition and any pair of group aggregates. *)
Definition somados (plus : Z -> Z -> Z) (agg_casa agg_fora : list Match -> Z)
  (d : DataFrame) : Series Z :=
  series_add plus (groupby Time_Casa agg_casa d)
                  (groupby Time_Visitante agg_fora d).

(* ------------------------------------------------------------------ *)
(** ** Further code of the script *)

(** The labels [load_data] creates, in the order of their assignments
    (lines 51 to 58, 76 and 77). *)
Definition colunas_derivadas : list string :=
  [ "Dif_Gols"; "Total_Gols"; "Vitoria_Casa"; "Empate"; "Vitoria_Visitante";
    "Intensidade_Ofensiva"; "Total_Faltas"; "Total_Vermelhos";
    "Estatisticas_Completas"; "Periodo_Completo" ].

(** Lines 101 to 114, [alerta_qualidade_dados]: whether the methodological
    warning is shown for the frame. *)
Definition temporadas_incompletas : list string :=
  [ "1993/94"; "1994/95"; "1995/96"; "1996/97"; "1997/98"; "1998/99";
    "1999/00" ].

Definition alerta_qualidade_dados (df_utilizado : DataFrame) : bool :=
  existsb (fun temp => str_mem temp temporadas_incompletas)
          (unique (map Temporada (rows df_utilizado))).

(** Lines 126 to 132: the counters of the overview page. *)
Definition total_de_jogos (df_analise : DataFrame) : Z :=
  len (rows df_analise).

Definition temporadas_nunique (df_analise : DataFrame) : Z :=
  len (unique (map Temporada (rows df_analise))).

Definition times_unicos (df_analise : DataFrame) : Z :=
  len (unique (unique (map Time_Casa (rows df_analise))
               ++ unique (map Time_Visitante (rows df_analise)))).

(** Lines 678 and 679: the options of the adversary select box. *)
Definition adversarios_opcoes (df_analise : DataFrame)
  (time_selecionado : string) : list string :=
  filter (fun t => negb (String.eqb t time_selecionado))
         (todos_times df_analise).

(** Lines 727 and 728: the options of the second team of the comparison. *)
Definition outros_times (df_analise : DataFrame) (time1 : string)
  : list string :=
  sorted (filter (fun t => negb (String.eqb t time1))
            (unique (unique (map Time_Casa (rows df_analise))
                     ++ unique (map Time_Visitante (rows df_analise))))).

(** Line 643: the goal balance shown on the team page. *)
Definition saldo_de_gols (time : string) (jogos : DataFrame) : Z :=
  wrap64 (gols_marcados time jogos - gols_sofridos time jogos).








(** Line 708: [Timestamp.strftime('%d/%m/%Y')], two digits for the day and
    the month, four for the year. *)
Definition digit_char (k : Z) : ascii := ascii_of_N (Z.to_N (48 + k)).

Definition strftime (d : date) : string :=
  String (digit_char (day d / 10))
    (String (digit_char (day d mod 10))
       (String "/"
          (String (digit_char (month d / 10))
             (String (digit_char (month d mod 10))
                (String "/"
                   (String (digit_char (year d / 1000))
                      (String (digit_char (year d / 100 mod 10))
                         (String (digit_char (year d / 10 mod 10))
                            (String (digit_char (year d mod 10))
                               EmptyString))))))))).

(** A calendar date that a nanosecond timestamp can hold. *)
Definition data_valida (d : date) : Prop :=
  1 <= month d <= 12
  /\ 1 <= day d <= days_in_month (year d) (month d)
  /\ in_timestamp_bounds d = true.





(** The equation of line 77 between the period flag and the season. *)
Definition periodo_ok (r : Match) : Prop :=
  Periodo_Completo r = String.leb "2000/01" (Temporada r).

(** The old names of the alias table of line 65. *)
Definition nomes_antigos : list string := map fst team_mapping.


(** A row whose result label is none of the three the pages compare with:
    the label is missing because the code of the file was not H, A or D. *)
Definition sem_rotulo (r : Match) : bool :=
  negb (label_is (Resultado_Final r) "Vitória Casa"
        || label_is (Resultado_Final r) "Vitória Visitante"
        || label_is (Resultado_Final r) "Empate").


(** The value of [(v * 3 + e) / (n * 3) * 100] when the division is
    defined. *)
Definition aproveitamento_q (v e n : Z) : Q :=
  (inject_Z (v * 3 + e) / inject_Z (n * 3) * inject_Z 100)%Q.

(** The games of one season among [jogos]. *)
Definition jogos_da_temporada (jogos : DataFrame) (temp : string)
  : DataFrame :=
  mask (fun r => String.eqb (Temporada r) temp) jogos.

(** The entry of lines 599 to 604 for season [temp]. *)
Definition entrada_temporada (jogos : DataFrame) (time temp : string)
  : performance_row :=
  let jogos_temp := jogos_da_temporada jogos temp in
  {| perf_Temporada := temp;
     perf_Vitorias := vitorias time jogos_temp;
     perf_Jogos := len (rows jogos_temp);
     perf_Aproveitamento :=
       aproveitamento_q (vitorias time jogos_temp) (empates jogos_temp)
                        (len (rows jogos_temp)) |}.

Definition soma (l : list Z) : Z := fold_right Z.add 0 l.


(** The integers [lo], [lo + 1], ..., [lo + n - 1]. *)
Definition intervalo (lo : Z) (n : nat) : list Z :=
  map (fun i => lo + Z.of_nat i) (seq 0 n).

Definition option_Z_eqb (a b : option Z) : bool :=
  match a, b with
  | Some x, Some y => x =? y
  | None, None => true
  | _, _ => false
  end.


(** Line 186: the options of the minimum-season select box. *)
Definition temporadas_opcoes (df_analise : DataFrame) : list string :=
  sorted (unique (map Temporada (rows df_analise))).


(** Line 705: [confrontos.sort_values('Data', ascending=False).head(5)].
    Timestamps of calendar dates compare as (year, month, day); a missing
    date (NaT) is placed last.  The default sort of pandas does not fix the
    order among games of the same date: [ordenacao_valida] holds of every
    arrangement [sort_values] may return, and [sort_values_Data_desc] is one
    of them (the one that keeps games of one date in table order). *)
Definition date_leb (x y : date) : bool :=
  if year x <? year y then true
  else if year y <? year x then false
  else if month x <? month y then true
  else if month y <? month x then false
  else day x <=? day y.

Definition data_geb (a b : Match) : bool :=
  match Data a, Data b with
  | Some x, Some y => date_leb y x
  | Some _, None => true
  | None, Some _ => false
  | None, None => true
  end.

Definition ordenacao_valida (c l : list Match) : Prop :=
  Permutation l c /\ StronglySorted (fun a b => data_geb a b = true) l.

Definition sort_values_Data_desc (d : DataFrame) : DataFrame :=
  {| columns := columns d; rows := sort_by data_geb (rows d) |}.

Definition head (n : nat) (d : DataFrame) : DataFrame :=
  {| columns := columns d; rows := firstn n (rows d) |}.

Definition ultimos_confrontos (df_analise : DataFrame)
    (time adversario : string) : DataFrame :=
  head 5 (sort_values_Data_desc (confrontos df_analise time adversario)).

(* ================================================================== *)
(** * Properties *)

(* ------------------------------------------------------------------ *)
(** ** Machine integers *)

Lemma wrap64_in_range (z : Z) : in_int64 z -> wrap64 z = z.
Proof.
  unfold in_int64, int64_min, int64_max, wrap64. intros H.
  rewrite Z.mod_small; lia.
Qed.





Lemma len_nonneg {A : Type} (l : list A) : 0 <= len l.
Proof. unfold len. lia. Qed.


Lemma len_pos_in {A : Type} (l : list A) (a : A) : In a l -> 0 < len l.
Proof. unfold len. destruct l; simpl; [tauto | lia]. Qed.

(* ------------------------------------------------------------------ *)
(** ** Membership, distinct values and sorting *)

Lemma str_mem_In (s : string) (l : list string) :
  str_mem s l = true <-> In s l.
Proof.
  unfold str_mem. rewrite existsb_exists. split.
  - intros [x [Hin Heq]]. apply String.eqb_eq in Heq. now subst.
  - intros Hin. exists s. split; [assumption | apply String.eqb_refl].
Qed.

Lemma str_mem_false (s : string) (l : list string) :
  str_mem s l = false <-> ~ In s l.
Proof.
  rewrite <- str_mem_In. destruct (str_mem s l); split; congruence.
Qed.

Section Sorting.
Context {A : Type}.
Variable leb : A -> A -> bool.

Lemma insert_sorted_perm (a : A) (l : list A) :
  Permutation (insert_sorted leb a l) (a :: l).
Proof.
  induction l as [|b l IH]; simpl; [reflexivity|].
  destruct (leb a b); [reflexivity|].
  rewrite IH. apply perm_swap.
Qed.

Lemma sort_by_perm (l : list A) : Permutation (sort_by leb l) l.
Proof.
  induction l as [|a l IH]; simpl; [reflexivity|].
  rewrite insert_sorted_perm. now constructor.
Qed.

Lemma sort_by_In (l : list A) (x : A) : In x (sort_by leb l) <-> In x l.
Proof.
  split; apply Permutation_in;
    [apply sort_by_perm | symmetry; apply sort_by_perm].
Qed.

Hypothesis leb_total : forall x y, leb x y = true \/ leb y x = true.
Hypothesis leb_trans :
  forall x y z, leb x y = true -> leb y z = true -> leb x z = true.

Lemma insert_sorted_sorted (a : A) (l : list A) :
  StronglySorted (fun x y => leb x y = true) l ->
  StronglySorted (fun x y => leb x y = true) (insert_sorted leb a l).
Proof.
  induction 1 as [|b l Hs IH Hb]; simpl.
  - repeat constructor.
  - destruct (leb a b) eqn:Hab.
    + constructor; [now constructor|].
      constructor; [assumption|].
      rewrite Forall_forall in *. intros x Hx.
      eapply leb_trans; [exact Hab | now apply Hb].
    + constructor; [assumption|].
      rewrite Forall_forall in *. intros x Hx.
      apply (Permutation_in _ (insert_sorted_perm a l)) in Hx.
      destruct Hx as [<- | Hx]; [|now apply Hb].
      destruct (leb_total a b); congruence.
Qed.

Lemma sort_by_sorted (l : list A) :
  StronglySorted (fun x y => leb x y = true) (sort_by leb l).
Proof.
  induction l as [|a l IH]; simpl; [constructor|].
  now apply insert_sorted_sorted.
Qed.

End Sorting.

Section Unique.
Context {A : Type}.
Variable eqb : A -> A -> bool.
Hypothesis eqb_spec : forall x y, eqb x y = true <-> x = y.

Lemma unique_by_In (l : list A) (x : A) : In x (unique_by eqb l) <-> In x l.
Proof.
  induction l as [|a l IH]; simpl; [tauto|].
  rewrite filter_In, IH. split.
  - intros [H | [H _]]; auto.
  - intros [H | H]; auto.
    destruct (eqb x a) eqn:E.
    + left. symmetry. now apply eqb_spec.
    + right. split; [assumption | reflexivity].
Qed.
End Unique.

Lemma unique_In (l : list string) (x : string) : In x (unique l) <-> In x l.
Proof. apply unique_by_In, String.eqb_eq. Qed.

Lemma sorted_In (l : list string) (x : string) : In x (sorted l) <-> In x l.
Proof. apply sort_by_In. Qed.

Lemma series_get_map {V : Type} (f : string -> V) (ks : list string)
  (k : string) :
  series_get (map (fun k => (k, f k)) ks) k
  = if str_mem k ks then Some (f k) else None.
Proof.
  induction ks as [|a ks IH]; simpl; [reflexivity|].
  destruct (String.eqb_spec k a) as [-> | Hne]; simpl; [reflexivity|].
  exact IH.
Qed.

(* ------------------------------------------------------------------ *)
(** ** Performance percentage *)

Lemma mapM_ok {A B : Type} (f : A -> result B) (P : B -> Prop) (l : list A) :
  (forall a, In a l -> exists b, f a = Ok b /\ P b) ->
  exists bs, mapM f l = Ok bs /\ Forall P bs.
Proof.
  induction l as [|a l IH]; intros H; simpl.
  - exists []. split; [reflexivity | constructor].
  - destruct (H a (or_introl eq_refl)) as [b [Hb Pb]].
    destruct IH as [bs [Hbs Pbs]].
    { intros x Hx. apply H. now right. }
    rewrite Hb, Hbs. simpl. exists (b :: bs). split; [reflexivity|].
    now constructor.
Qed.

Lemma mapM_length {A B : Type} (f : A -> result B) (l : list A)
  (bs : list B) :
  mapM f l = Ok bs -> List.length bs = List.length l.
Proof.
  revert bs. induction l as [|a l IH]; simpl; intros bs H.
  - now inversion H.
  - destruct (f a); simpl in H; [|discriminate].
    destruct (mapM f l); simpl in H; [|discriminate].
    inversion H. simpl. f_equal. now apply IH.
Qed.

Lemma venceu_empatou_disjoint (time : string) (r : Match) :
  venceu time r = true -> empatou r = false.
Proof.
  unfold venceu, empatou, label_is.
  destruct (Resultado_Final r) as [s|]; [|reflexivity].
  intros H. destruct (String.eqb_spec s "Empate") as [-> | _];
    [|reflexivity].
  simpl in H. now rewrite !andb_false_r in H.
Qed.

Lemma vitorias_empates_le (time : string) (jogos : DataFrame) :
  vitorias time jogos + empates jogos <= len (rows jogos).
Proof.
  unfold vitorias, empates, mask, len. simpl.
  enough (List.length (filter (venceu time) (rows jogos))
          + List.length (filter empatou (rows jogos))
          <= List.length (rows jogos))%nat by lia.
  induction (rows jogos) as [|r l IH]; simpl; [lia|].
  pose proof (venceu_empatou_disjoint time r) as D.
  destruct (venceu time r), (empatou r); simpl;
    try (specialize (D eq_refl); discriminate); lia.
Qed.

Lemma vitorias_nonneg (time : string) (jogos : DataFrame) :
  0 <= vitorias time jogos.
Proof. apply len_nonneg. Qed.

Lemma empates_nonneg (jogos : DataFrame) : 0 <= empates jogos.
Proof. apply len_nonneg. Qed.

Lemma percentual_value (v e n : Z) :
  n <> 0 ->
  percentual v e n
  = Ok (inject_Z (v * 3 + e) / inject_Z (n * 3) * inject_Z 100)%Q.
Proof.
  intros H. unfold percentual.
  destruct (n * 3 =? 0) eqn:E; [|reflexivity].
  apply Z.eqb_eq in E. lia.
Qed.

Lemma percentual_zero (v e : Z) : percentual v e 0 = Raise ZeroDivisionError.
Proof. reflexivity. Qed.

Lemma ratio_bounds (a b : Z) :
  0 <= a <= b -> 0 < b ->
  (0 <= inject_Z a / inject_Z b * inject_Z 100
   /\ inject_Z a / inject_Z b * inject_Z 100 <= 100)%Q.
Proof.
  intros Ha Hb.
  destruct b as [|p|p]; try lia.
  unfold Qle, Qdiv, Qmult, Qinv, inject_Z. simpl.
  split; nia.
Qed.

Lemma percentual_bounds (v e n : Z) :
  0 <= v -> 0 <= e -> v + e <= n -> 0 < n ->
  exists q, percentual v e n = Ok q /\ (0 <= q /\ q <= 100)%Q.
Proof.
  intros Hv He Hs Hn.
  rewrite percentual_value by lia.
  eexists. split; [reflexivity|].
  apply ratio_bounds; lia.
Qed.

Lemma todos_times_In (d : DataFrame) (time : string) :
  In time (todos_times d)
  <-> In time (map Time_Casa (rows d)) \/ In time (map Time_Visitante (rows d)).
Proof.
  unfold todos_times.
  rewrite sorted_In, unique_In, in_app_iff, !unique_In. tauto.
Qed.

Lemma jogos_time_pos (d : DataFrame) (time : string) :
  In time (todos_times d) -> 0 < len (rows (jogos_time d time)).
Proof.
  rewrite todos_times_In, !in_map_iff.
  intros [[r [Hr Hin]] | [r [Hr Hin]]];
    apply (len_pos_in _ r); unfold jogos_time, mask; simpl;
    apply filter_In; (split; [assumption|]); unfold joga;
    rewrite Hr, String.eqb_refl; [reflexivity | apply orb_true_r].
Qed.

Lemma temporada_pos (jogos : DataFrame) (temp : string) :
  In temp (map Temporada (rows jogos)) ->
  0 < len (rows (mask (fun r => String.eqb (Temporada r) temp) jogos)).
Proof.
  rewrite in_map_iff. intros [r [Hr Hin]].
  apply (len_pos_in _ r). unfold mask. simpl.
  apply filter_In. split; [assumption|].
  rewrite Hr. apply String.eqb_refl.
Qed.

Lemma performance_data_ok (d : DataFrame) (time : string) :
  exists l, performance_data d time = Ok l
            /\ Forall (fun p => (0 <= perf_Aproveitamento p
                                 /\ perf_Aproveitamento p <= 100)%Q) l.
Proof.
  unfold performance_data. apply mapM_ok.
  intros temp Hin. rewrite sorted_In, unique_In in Hin.
  apply temporada_pos in Hin.
  set (jt := mask _ _) in *.
  destruct (percentual_bounds (vitorias time jt) (empates jt) (len (rows jt)))
    as [q [Hq Hb]];
    auto using vitorias_nonneg, empates_nonneg, vitorias_empates_le.
  rewrite Hq. simpl. eexists. split; [reflexivity | exact Hb].
Qed.





(** C10.  For a team with at least one game in the slice the performance
    percentage is a number between 0 and 100: a game counted as a win is
    not counted as a draw, so wins plus draws do not exceed the games.  The
    same bounds hold for every entry of the per-season table. *)
Theorem C10_aproveitamento_entre_0_e_100 :
  forall (d : DataFrame) (time : string),
    0 < len (rows (jogos_time d time)) ->
    let jogos := jogos_time d time in
    vitorias time jogos + empates jogos <= len (rows jogos)
    /\ (exists q, aproveitamento d time = Ok q /\ (0 <= q /\ q <= 100)%Q)
    /\ (exists l, performance_data d time = Ok l
                  /\ Forall (fun p => (0 <= perf_Aproveitamento p
                                       /\ perf_Aproveitamento p <= 100)%Q) l).
Proof.
  intros d time Hn jogos. split; [apply vitorias_empates_le|]. split.
  - unfold aproveitamento. fold jogos.
    apply percentual_bounds;
      auto using vitorias_nonneg, empates_nonneg, vitorias_empates_le.
  - apply performance_data_ok.
Qed.

Lemma C10_aproveitamento_entre_0_e_100_witness :
  exists q, aproveitamento df_exemplo "Arsenal" = Ok q
            /\ (0 <= q /\ q <= 100)%Q.
Proof.
  apply (C10_aproveitamento_entre_0_e_100 df_exemplo "Arsenal").
  vm_compute. reflexivity.
Defined.

(** The worked example of the specification: 10 wins and 5 draws in 20
    games give 3500/60, that is 58.33 per cent. *)
Example percentual_10_5_20 :
  exists q, percentual 10 5 20 = Ok q /\ (q == 3500 # 60)%Q.
Proof. eexists. split; reflexivity. Qed.

(* ------------------------------------------------------------------ *)
(** ** Efficiency *)



(* ------------------------------------------------------------------ *)
(** ** Head-to-head *)

Lemma confrontos_In (d : DataFrame) (a b : string) (r : Match) :
  In r (rows (confrontos d a b))
  <-> In r (rows d)
      /\ ((Time_Casa r = a /\ Time_Visitante r = b)
          \/ (Time_Casa r = b /\ Time_Visitante r = a)).
Proof.
  unfold confrontos, mask, em_casa, fora. simpl.
  rewrite filter_In, orb_true_iff, !andb_true_iff, !String.eqb_eq. tauto.
Qed.

(** C8.  The head-to-head filter gives the same rows for (A, B) as for
    (B, A): exactly the rows of the table where the two teams meet, in
    either home/away order.  When they never meet the result is the empty
    frame, and the tab shows an information message instead of failing. *)
Theorem C8_confrontos_simetrico :
  forall (d : DataFrame) (a b : string),
    confrontos d a b = confrontos d b a
    /\ (forall r, In r (rows (confrontos d a b))
                  <-> In r (rows d)
                      /\ ((Time_Casa r = a /\ Time_Visitante r = b)
                          \/ (Time_Casa r = b /\ Time_Visitante r = a)))
    /\ columns (confrontos d a b) = columns d
    /\ (rows (confrontos d a b) = [] ->
        exists info, confrontos_diretos d a b = Nenhum_confronto info).
Proof.
  intros d a b. split; [|split; [|split]].
  - unfold confrontos, mask. f_equal. apply filter_ext.
    intros r. apply orb_comm.
  - intros r. apply confrontos_In.
  - reflexivity.
  - intros H. unfold confrontos_diretos. rewrite H. simpl. eauto.
Qed.

Lemma C8_confrontos_simetrico_witness :
  exists info,
    confrontos_diretos df_exemplo "Arsenal" "Ipswich Town"
    = Nenhum_confronto info.
Proof.
  apply (proj2 (proj2 (proj2
           (C8_confrontos_simetrico df_exemplo "Arsenal" "Ipswich Town")))).
  vm_compute. reflexivity.
Defined.

(* ------------------------------------------------------------------ *)
(** ** The loader *)

Ltac bind_inv H :=
  repeat match type of H with
         | bind ?m _ = Ok _ =>
             let E := fresh "E" in
             destruct m eqn:E; cbn [bind] in H; cbv zeta in H;
             [|discriminate H]
         end.

Lemma str_mem_setitem (c : list string) (label x : string) :
  str_mem x (setitem c label) = str_mem x c || String.eqb x label.
Proof.
  unfold setitem. destruct (str_mem label c) eqn:E.
  - destruct (String.eqb_spec x label) as [-> | _].
    + now rewrite E.
    + now rewrite orb_false_r.
  - unfold str_mem. rewrite existsb_app. simpl. now rewrite orb_false_r.
Qed.

Lemma getitem_ok (c : list string) (label : string) (u : unit) :
  getitem c label = Ok u <-> str_mem label c = true.
Proof.
  unfold getitem. destruct (str_mem label c), u; split; congruence.
Qed.

Lemma assign_ok (c : list string) (reads : list string) (label : string)
  (c' : list string) :
  assign c reads label = Ok c'
  <-> Forall (fun r => str_mem r c = true) reads /\ c' = setitem c label.
Proof.
  unfold assign.
  assert (G : (exists us, mapM (getitem c) reads = Ok us)
              <-> Forall (fun r => str_mem r c = true) reads).
  { induction reads as [|r reads IH]; simpl.
    - split; [constructor | eauto].
    - unfold getitem at 1. destruct (str_mem r c) eqn:E; simpl.
      + split.
        * intros [us H]. constructor; [exact E|]. apply IH.
          destruct (mapM (getitem c) reads); [eauto | discriminate].
        * intros H. inversion H; subst.
          destruct (proj2 IH H3) as [us ->]. simpl. eauto.
      + split; [intros [us H]; discriminate|].
        intros H. inversion H. congruence. }
  destruct (mapM (getitem c) reads) as [us|e]; simpl.
  - split.
    + intros H. inversion H. split; [apply G; eauto | reflexivity].
    + intros [_ ->]. reflexivity.
  - split; [discriminate|]. intros [H _]. apply G in H.
    destruct H; discriminate.
Qed.

Lemma getitems_ok (c : list string) (labels : list string) (u : unit) :
  getitems c labels = Ok u <-> Forall (fun r => str_mem r c = true) labels.
Proof.
  unfold getitems.
  assert (G : filter (fun l => negb (str_mem l c)) labels = []
              <-> Forall (fun r => str_mem r c = true) labels).
  { induction labels as [|r labels IH]; simpl.
    - split; [constructor | reflexivity].
    - destruct (str_mem r c) eqn:E; simpl.
      + rewrite IH. split; [now constructor | now inversion 1].
      + split; [discriminate | inversion 1; congruence]. }
  destruct (filter _ labels) eqn:F.
  - destruct u. split; [intros _; now apply G | reflexivity].
  - split; [discriminate|]. intros H. apply G in H. discriminate.
Qed.

Ltac header_facts :=
  repeat match goal with
         | H : assign _ _ _ = Ok _ |- _ =>
             apply assign_ok in H; destruct H as [? ->]
         | H : getitems _ _ = Ok _ |- _ => apply getitems_ok in H
         | H : Forall _ (_ :: _) |- _ => inversion_clear H
         | H : Forall _ [] |- _ => clear H
         end.

Ltac header_simpl :=
  repeat (rewrite str_mem_setitem in *; cbn [String.eqb Ascii.eqb Bool.eqb]
            in *; rewrite ?orb_false_r in * ).

Lemma load_data_inv (csv : RawFrame) (d : DataFrame) :
  load_data csv = Ok d ->
  cabecalho_completo csv
  /\ exists datas,
       mapM to_datetime (map Date (raw_rows csv)) = Ok datas
       /\ rows d = carregado csv datas.
Proof.
  intros H. unfold load_data in H. bind_inv H.
  inversion H; subst; clear H. cbn [rows].
  split; [|eexists; split; reflexivity].
  header_facts. unfold colunas_estatisticas in *. header_facts.
  unfold cabecalho_completo, colunas_lidas, colunas_estatisticas.
  cbn [app].
  header_simpl.
  match goal with
  | R : str_mem "Referee" (raw_columns csv) = true |- _ =>
      unfold setitem in *; rewrite R in *
  end.
  split; [reflexivity|].
  repeat (constructor; [assumption|]). constructor.
Qed.

Lemma assign_intro (c : list string) (reads : list string) (label : string) :
  Forall (fun r => str_mem r c = true) reads ->
  assign c reads label = Ok (setitem c label).
Proof. intros H. apply assign_ok. split; [assumption | reflexivity]. Qed.

Lemma getitems_intro (c : list string) (labels : list string) :
  Forall (fun r => str_mem r c = true) labels ->
  getitems c labels = Ok tt.
Proof. apply getitems_ok. Qed.

Lemma setitem_present (c : list string) (label : string) :
  str_mem label c = true -> setitem c label = c.
Proof. unfold setitem. now intros ->. Qed.

Ltac header_goal :=
  repeat (constructor;
          [repeat rewrite str_mem_setitem;
           repeat match goal with
                  | H : str_mem _ _ = true |- _ => rewrite H
                  end;
           reflexivity|]);
  constructor.

Lemma load_data_intro (csv : RawFrame) (datas : list (option date)) :
  cabecalho_completo csv ->
  mapM to_datetime (map Date (raw_rows csv)) = Ok datas ->
  exists cols,
    load_data csv = Ok {| columns := cols; rows := carregado csv datas |}.
Proof.
  intros [R C] D.
  unfold colunas_lidas, colunas_estatisticas in C. cbn [app] in C.
  repeat match goal with
         | H : Forall _ (_ :: _) |- _ => inversion_clear H
         end.
  eexists. unfold load_data.
  rewrite (assign_intro (raw_columns csv)) by header_goal.
  rewrite (setitem_present _ _ R). cbn [bind]. cbv zeta.
  repeat (rewrite assign_intro by header_goal; cbn [bind]).
  rewrite D. cbn [bind].
  repeat (rewrite assign_intro by header_goal; cbn [bind]).
  rewrite getitems_intro by (unfold colunas_estatisticas; header_goal).
  cbn [bind]. cbv zeta.
  repeat (rewrite assign_intro by header_goal; cbn [bind]).
  reflexivity.
Qed.

Lemma Forall2_carregado (P : RawRow -> Match -> Prop) (csv : RawFrame)
  (datas : list (option date)) :
  mapM to_datetime (map Date (raw_rows csv)) = Ok datas ->
  (forall raw dt, In raw (raw_rows csv) -> P raw (features raw dt)) ->
  Forall2 P (raw_rows csv) (carregado csv datas).
Proof.
  intros D H. apply mapM_length in D. rewrite length_map in D.
  unfold carregado. revert datas D.
  induction (raw_rows csv) as [|raw l IH]; intros [|dt datas] D;
    simpl in *; try discriminate; constructor.
  - apply H. now left.
  - apply IH; [intros; apply H; now right | congruence].
Qed.

Lemma Forall_carregado (P : Match -> Prop) (csv : RawFrame)
  (datas : list (option date)) :
  (forall raw dt, In raw (raw_rows csv) -> P (features raw dt)) ->
  Forall P (carregado csv datas).
Proof.
  intros H. unfold carregado. apply Forall_forall. intros r Hr.
  apply in_map_iff in Hr. destruct Hr as [[raw dt] [<- Hin]].
  apply in_combine_l in Hin. now apply H.
Qed.

(** *** Which inputs fail the load *)

Lemma dict_get_In (d : list (string * string)) (k v : string) :
  dict_get d k = Some v -> In (k, v) d.
Proof.
  induction d as [|[k' v'] d IH]; simpl; [discriminate|].
  destruct (String.eqb_spec k k') as [-> | _].
  - intros H. inversion H. now left.
  - intros H. right. now apply IH.
Qed.

Lemma dict_values_inj (d : list (string * string)) (k k' v : string) :
  distinct (map snd d) = true -> In (k, v) d -> In (k', v) d -> k = k'.
Proof.
  induction d as [|[a b] d IH]; simpl; [tauto|].
  rewrite andb_true_iff, negb_true_iff, str_mem_false.
  intros [Hb Hd] [H1 | H1] [H2 | H2].
  - congruence.
  - inversion H1; subst. exfalso. apply Hb.
    apply in_map_iff. now exists (k', v).
  - inversion H2; subst. exfalso. apply Hb.
    apply in_map_iff. now exists (k, v).
  - now apply IH.
Qed.

Lemma rename_inv (k v x : string) :
  In (k, v) rename_table -> rename rename_table x = v -> x = k \/ x = v.
Proof.
  intros Hin Hr. unfold rename in Hr.
  destruct (dict_get rename_table x) as [s|] eqn:E; [|now right].
  left. subst s. apply dict_get_In in E.
  now apply (dict_values_inj rename_table x k v).
Qed.

Lemma campos_lidos_spec (label : string) :
  In label campos_lidos ->
  label = "Referee"
  \/ (In (label, rename rename_table label) rename_table
      /\ In (rename rename_table label) colunas_lidas).
Proof.
  unfold campos_lidos. intros H.
  repeat (destruct H as [<- | H];
          [first [ left; reflexivity
                 | right; split; cbn;
                   repeat (first [left; reflexivity | right]) ] |]).
  destruct H.
Qed.

Lemma campo_ausente (csv : RawFrame) (label : string) :
  In label campos_lidos ->
  ~ In label (raw_columns csv) ->
  ~ In (rename rename_table label) (raw_columns csv) ->
  ~ cabecalho_completo csv.
Proof.
  intros Hl Hraw Hcan [R C].
  destruct (campos_lidos_spec label Hl) as [-> | [Ht Hc]].
  - apply str_mem_In in R. contradiction.
  - rewrite Forall_forall in C. specialize (C _ Hc).
    apply str_mem_In, in_map_iff in C. destruct C as [x [Hx Hin]].
    destruct (rename_inv _ _ _ Ht Hx); subst; contradiction.
Qed.

Lemma codigo_invalido_sem_rotulo (codigo : string) :
  codigo_valido codigo = false -> dict_get result_labels codigo = None.
Proof.
  unfold codigo_valido, str_mem, result_labels. simpl.
  destruct (String.eqb codigo "H"), (String.eqb codigo "A"),
    (String.eqb codigo "D"); simpl; congruence.
Qed.

(** C2 (amended).  The load fails as a whole, with no table returned, when
    a source field the loader reads is absent from the file: one of the
    twenty of [campos_lidos], present neither under its source name nor
    under the name it is renamed to (the three half-time fields are renamed
    but not read).  The result code is not validated: with a complete
    header and dates that parse the load succeeds whatever the codes are,
    and a code outside H, A, D leaves the result label of its row
    missing. *)
Theorem C2_load_data_falha_por_coluna :
  forall (csv : RawFrame),
    (forall label,
        In label campos_lidos ->
        ~ In label (raw_columns csv) ->
        ~ In (rename rename_table label) (raw_columns csv) ->
        exists e, load_data csv = Raise e)
    /\ (cabecalho_completo csv -> datas_validas csv ->
        exists d,
          load_data csv = Ok d
          /\ Forall2 (fun raw r =>
                        Resultado_Final r
                        = dict_get result_labels (FT_Result raw)
                        /\ (codigo_valido (FT_Result raw) = false ->
                            Resultado_Final r = None))
                     (raw_rows csv) (rows d)).
Proof.
  intros csv. split.
  - intros label Hl Hraw Hcan.
    destruct (load_data csv) as [d|e] eqn:E; [|eauto].
    exfalso. apply load_data_inv in E. destruct E as [E _].
    exact (campo_ausente csv label Hl Hraw Hcan E).
  - intros Hc [datas Hd].
    destruct (load_data_intro csv datas Hc Hd) as [cols Hload].
    eexists. split; [exact Hload|]. cbn [rows].
    apply Forall2_carregado; [assumption|].
    intros raw dt _. cbn [features Resultado_Final].
    split; [reflexivity | apply codigo_invalido_sem_rotulo].
Qed.

Lemma C2_load_data_falha_por_coluna_witness :
  (exists e, load_data csv_sem_resultado = Raise e)
  /\ exists d,
       load_data csv_codigo_invalido = Ok d
       /\ Forall2 (fun raw r =>
                     Resultado_Final r
                     = dict_get result_labels (FT_Result raw)
                     /\ (codigo_valido (FT_Result raw) = false ->
                         Resultado_Final r = None))
                  (raw_rows csv_codigo_invalido) (rows d).
Proof.
  split.
  - apply (proj1 (C2_load_data_falha_por_coluna csv_sem_resultado)
             "FT Result").
    + vm_compute. tauto.
    + apply (proj1 (str_mem_false "FT Result"
                      (raw_columns csv_sem_resultado))).
      vm_compute. reflexivity.
    + apply (proj1 (str_mem_false (rename rename_table "FT Result")
                      (raw_columns csv_sem_resultado))).
      vm_compute. reflexivity.
  - apply (proj2 (C2_load_data_falha_por_coluna csv_codigo_invalido)).
    + split; [vm_compute; reflexivity|].
      unfold colunas_lidas, colunas_estatisticas. cbn [app].
      repeat (constructor; [vm_compute; reflexivity|]). constructor.
    + eexists. vm_compute. reflexivity.
Defined.

(** C2 as stated fails: a record whose result code is X does not stop the
    load; the table is returned with a missing label in that row. *)
Lemma C2_codigo_invalido_carrega :
  (exists raw, In raw (raw_rows csv_codigo_invalido)
               /\ codigo_valido (FT_Result raw) = false)
  /\ exists d, load_data csv_codigo_invalido = Ok d
               /\ map Resultado_Final (rows d) = [None].
Proof.
  split.
  - eexists. split; [left; reflexivity | reflexivity].
  - eexists. split; vm_compute; reflexivity.
Qed.

Example load_data_sem_intervalo :
  is_ok (load_data csv_sem_intervalo) = true.
Proof. vm_compute. reflexivity. Qed.

Example load_data_sem_resultado :
  load_data csv_sem_resultado = Raise (KeyError ["Resultado_Final"]).
Proof. vm_compute. reflexivity. Qed.

(** *** The derived columns *)

Lemma features_derivadas_ok (raw : RawRow) (dt : option date) :
  derivadas_ok (features raw dt).
Proof. repeat split. Qed.

Lemma load_data_derivadas_ok (csv : RawFrame) (d : DataFrame) :
  load_data csv = Ok d -> Forall derivadas_ok (rows d).
Proof.
  intros H. apply load_data_inv in H. destruct H as [_ [datas [_ ->]]].
  apply Forall_carregado. intros. apply features_derivadas_ok.
Qed.

(** The working copy of either scope is made of rows of the loaded table,
    so it satisfies the same equations. *)
Lemma df_analise_derivadas_ok (csv : RawFrame) (d : DataFrame)
  (analise_tipo : escopo) :
  load_data csv = Ok d ->
  Forall derivadas_ok (rows (df_analise (iniciar analise_tipo d))).
Proof.
  intros H. apply load_data_derivadas_ok in H.
  destruct analise_tipo; cbn; [exact H|].
  rewrite Forall_forall in *. intros r Hr. apply filter_In in Hr.
  now apply H.
Qed.

Lemma load_data_rows_In (csv : RawFrame) (d : DataFrame) (r : Match) :
  load_data csv = Ok d -> In r (rows d) ->
  exists raw dt, In raw (raw_rows csv) /\ r = features raw dt.
Proof.
  intros H Hr. apply load_data_inv in H. destruct H as [_ [datas [_ E]]].
  rewrite E in Hr. unfold carregado in Hr. apply in_map_iff in Hr.
  destruct Hr as [[raw dt] [<- Hin]]. apply in_combine_l in Hin.
  now exists raw, dt.
Qed.

(** C5.  In every row of the loaded table exactly one of the three
    indicator columns [Vitoria_Casa], [Empate], [Vitoria_Visitante] is 1 and
    the other two are 0, and the one that is set follows the sign of
    [Dif_Gols]: home win iff it is positive, draw iff it is zero, away win
    iff it is negative.  The goals of the file are scores, non-negative
    [int64] values. *)
Theorem C5_indicadores_exclusivos :
  forall (csv : RawFrame) (d : DataFrame),
    load_data csv = Ok d ->
    Forall gols_validos (raw_rows csv) ->
    Forall (fun r =>
              Vitoria_Casa r + Empate r + Vitoria_Visitante r = 1
              /\ (Vitoria_Casa r = 0 \/ Vitoria_Casa r = 1)
              /\ (Empate r = 0 \/ Empate r = 1)
              /\ (Vitoria_Visitante r = 0 \/ Vitoria_Visitante r = 1)
              /\ (Vitoria_Casa r = 1 <-> 0 < Dif_Gols r)
              /\ (Empate r = 1 <-> Dif_Gols r = 0)
              /\ (Vitoria_Visitante r = 1 <-> Dif_Gols r < 0))
           (rows d).
Proof.
  intros csv d Hload Hg. apply Forall_forall. intros r Hr.
  destruct (load_data_rows_In csv d r Hload Hr) as [raw [dt [Hin ->]]].
  rewrite Forall_forall in Hg. destruct (Hg raw Hin) as [Hh Ha].
  cbn [features Vitoria_Casa Empate Vitoria_Visitante Dif_Gols].
  rewrite wrap64_in_range
    by (unfold in_int64, int64_min, int64_max in *; lia).
  unfold astype_int.
  destruct (Z.gtb_spec (FTH_Goals raw) (FTA_Goals raw)),
           (Z.eqb_spec (FTH_Goals raw) (FTA_Goals raw)),
           (Z.ltb_spec (FTH_Goals raw) (FTA_Goals raw)); lia.
Qed.

Lemma C5_indicadores_exclusivos_witness :
  Forall (fun r =>
            Vitoria_Casa r + Empate r + Vitoria_Visitante r = 1
            /\ (Vitoria_Casa r = 0 \/ Vitoria_Casa r = 1)
            /\ (Empate r = 0 \/ Empate r = 1)
            /\ (Vitoria_Visitante r = 0 \/ Vitoria_Visitante r = 1)
            /\ (Vitoria_Casa r = 1 <-> 0 < Dif_Gols r)
            /\ (Empate r = 1 <-> Dif_Gols r = 0)
            /\ (Vitoria_Visitante r = 1 <-> Dif_Gols r < 0))
         (rows df_exemplo).
Proof.
  apply (C5_indicadores_exclusivos csv_exemplo df_exemplo).
  - vm_compute. reflexivity.
  - unfold gols_validos, int64_max. simpl.
    repeat (constructor; [simpl; lia|]). constructor.
Defined.

(** C6.  In every row of the loaded table [Estatisticas_Completas] is true
    exactly when none of the twelve columns of [colunas_estatisticas] is
    missing in that row; two rows, of any two loaded tables, that agree on
    these twelve columns have the same flag, whatever their other
    columns hold. *)
Theorem C6_estatisticas_completas :
  forall (csv : RawFrame) (d : DataFrame),
    load_data csv = Ok d ->
    Forall (fun r =>
              Estatisticas_Completas r = true
              <-> Forall (fun c => c <> None) (estatisticas r))
           (rows d)
    /\ Forall2 (fun raw r => estatisticas r = raw_estatisticas raw)
               (raw_rows csv) (rows d)
    /\ (forall csv' d' r r',
           load_data csv' = Ok d' ->
           In r (rows d) -> In r' (rows d') ->
           estatisticas r = estatisticas r' ->
           Estatisticas_Completas r = Estatisticas_Completas r').
Proof.
  intros csv d Hload.
  assert (F : forall csv0 d0 r0,
             load_data csv0 = Ok d0 -> In r0 (rows d0) ->
             Estatisticas_Completas r0
             = negb (existsb isnull (estatisticas r0))).
  { intros csv0 d0 r0 H0 Hr0.
    apply load_data_derivadas_ok in H0. rewrite Forall_forall in H0.
    apply (H0 r0 Hr0). }
  split; [|split].
  - apply Forall_forall. intros r Hr. rewrite (F csv d r Hload Hr).
    rewrite negb_true_iff, <- not_true_iff_false, existsb_exists,
      Forall_forall.
    split.
    + intros H c Hc ->. apply H. exists None. now split.
    + intros H [c [Hc Hn]]. destruct c; [discriminate|]. now apply (H None).
  - apply load_data_inv in Hload.
    destruct Hload as [_ [datas [Hd ->]]].
    apply Forall2_carregado; [assumption | reflexivity].
  - intros csv' d' r r' Hload' Hr Hr' E.
    rewrite (F csv d r Hload Hr), (F csv' d' r' Hload' Hr'), E.
    reflexivity.
Qed.

Lemma C6_estatisticas_completas_witness :
  Forall (fun r =>
            Estatisticas_Completas r = true
            <-> Forall (fun c => c <> None) (estatisticas r))
         (rows df_exemplo).
Proof.
  apply (C6_estatisticas_completas csv_exemplo df_exemplo).
  vm_compute. reflexivity.
Defined.

(* ------------------------------------------------------------------ *)
(** ** Purity of the aggregations *)

Lemma run_df (a : aggregation) (s : Session) : df (snd (run a s)) = df s.
Proof. destruct a; reflexivity. Qed.

Lemma run_all_df (l : list aggregation) (s : Session) :
  df (run_all l s) = df s.
Proof.
  unfold run_all. revert s. induction l as [|a l IH]; intros s; simpl;
    [reflexivity|].
  rewrite IH. apply run_df.
Qed.

(** C3 (amended).  No aggregation ever changes [df], the table
    [load_data] returned.  Every aggregation except the champion
    determination also leaves [df_analise], the working copy it operates
    on, as it was.  The champion determination assigns into [df_analise]:
    it adds the column [Campeao] and changes nothing else of any row. *)
Theorem C3_agregacoes_e_tabelas :
  forall (a : aggregation) (s : Session),
    df (snd (run a s)) = df s
    /\ (forall l, df (run_all l s) = df s)
    /\ (a <> Campeoes -> snd (run a s) = s)
    /\ (a = Campeoes ->
        columns (df_analise (snd (run a s)))
        = setitem (columns (df_analise s)) "Campeao"
        /\ rows (df_analise (snd (run a s)))
           = map (fun r => set_Campeao
                             (e_campeao (df_analise s) (Time_Casa r)) r)
                 (rows (df_analise s))
        /\ forall b, map (set_Campeao b) (rows (df_analise (snd (run a s))))
                     = map (set_Campeao b) (rows (df_analise s))).
Proof.
  intros a s. split; [apply run_df|]. split; [intros l; apply run_all_df|].
  split.
  - destruct a; intros H; try reflexivity. congruence.
  - intros ->. cbn. split; [reflexivity|]. split; [reflexivity|].
    intros b. rewrite map_map. reflexivity.
Qed.

Lemma C3_agregacoes_e_tabelas_witness :
  snd (run (Aproveitamento_Time "Arsenal")
           (iniciar Historica_Completa df_exemplo))
  = iniciar Historica_Completa df_exemplo
  /\ columns (df_analise (snd (run Campeoes
                                   (iniciar Historica_Completa df_exemplo))))
     = setitem (columns (df_analise (iniciar Historica_Completa df_exemplo)))
               "Campeao".
Proof.
  split.
  - apply (proj1 (proj2 (proj2
             (C3_agregacoes_e_tabelas (Aproveitamento_Time "Arsenal")
                (iniciar Historica_Completa df_exemplo))))).
    discriminate.
  - apply (proj2 (proj2 (proj2
             (C3_agregacoes_e_tabelas Campeoes
                (iniciar Historica_Completa df_exemplo))))).
    reflexivity.
Defined.

(** C3 as stated fails: the champion determination leaves the table it
    operates on with one column more. *)
Lemma C3_campeoes_acrescenta_coluna :
  let s := iniciar Historica_Completa df_exemplo in
  df_analise (snd (run Campeoes s)) <> df_analise s
  /\ str_mem "Campeao" (columns (df_analise s)) = false
  /\ str_mem "Campeao" (columns (df_analise (snd (run Campeoes s)))) = true.
Proof.
  cbv zeta. split; [|split; vm_compute; reflexivity].
  intros H. apply (f_equal (fun d => List.length (columns d))) in H.
  vm_compute in H. discriminate H.
Qed.

(* ------------------------------------------------------------------ *)
(** ** Team totals *)

Lemma str_mem_ext (k : string) (l l' : list string) :
  (forall x, In x l <-> In x l') -> str_mem k l = str_mem k l'.
Proof.
  intros H. destruct (str_mem k l') eqn:E.
  - apply str_mem_In, H. now apply str_mem_In.
  - apply str_mem_false. rewrite H. now apply str_mem_false.
Qed.

Lemma str_mem_sorted_unique (k : string) (l : list string) :
  str_mem k (sorted (unique l)) = str_mem k l.
Proof.
  apply str_mem_ext. intros x. now rewrite sorted_In, unique_In.
Qed.

Lemma groupby_get {V : Type} (key : Match -> string) (agg : list Match -> V)
  (d : DataFrame) (k : string) :
  series_get (groupby key agg d) k
  = if str_mem k (map key (rows d))
    then Some (agg (filter (fun r => String.eqb (key r) k) (rows d)))
    else None.
Proof.
  unfold groupby.
  rewrite (series_get_map
             (fun k => agg (filter (fun r => String.eqb (key r) k) (rows d)))).
  now rewrite str_mem_sorted_unique.
Qed.

Lemma groupby_index {V : Type} (key : Match -> string)
  (agg : list Match -> V) (d : DataFrame) :
  map fst (groupby key agg d) = sorted (unique (map key (rows d))).
Proof.
  unfold groupby. rewrite map_map. simpl. apply map_id.
Qed.

Lemma filter_absent (key : Match -> string) (k : string) (l : list Match) :
  ~ In k (map key l) -> filter (fun r => String.eqb (key r) k) l = [].
Proof.
  induction l as [|r l IH]; simpl; [reflexivity|]. intros H.
  destruct (String.eqb_spec (key r) k) as [E | _]; [tauto|].
  apply IH. tauto.
Qed.

Section TeamTotals.
Variable plus : Z -> Z -> Z.
Variables agg_casa agg_fora : list Match -> Z.
Hypothesis agg_casa_nil : agg_casa [] = 0.
Hypothesis agg_fora_nil : agg_fora [] = 0.

Lemma somados_get (d : DataFrame) (t : string) :
  In t (map Time_Casa (rows d)) \/ In t (map Time_Visitante (rows d)) ->
  series_get (somados plus agg_casa agg_fora d) t
  = Some (plus (agg_casa (filter (em_casa t) (rows d)))
               (agg_fora (filter (fora t) (rows d)))).
Proof.
  intros H. unfold somados, series_add.
  rewrite (series_get_map
             (fun k => plus
                (match series_get (groupby Time_Casa agg_casa d) k with
                 | Some x => x | None => 0 end)
                (match series_get (groupby Time_Visitante agg_fora d) k with
                 | Some y => y | None => 0 end))).
  rewrite str_mem_sorted_unique, !groupby_index.
  replace (str_mem t _) with true.
  2:{ symmetry. apply str_mem_In.
      rewrite in_app_iff, !sorted_In, !unique_In. exact H. }
  rewrite !groupby_get. f_equal. f_equal.
  - destruct (str_mem t (map Time_Casa (rows d))) eqn:E; [reflexivity|].
    apply str_mem_false in E.
    change (em_casa t) with (fun r => String.eqb (Time_Casa r) t).
    now rewrite (filter_absent Time_Casa t _ E).
  - destruct (str_mem t (map Time_Visitante (rows d))) eqn:E;
      [reflexivity|].
    apply str_mem_false in E.
    change (fora t) with (fun r => String.eqb (Time_Visitante r) t).
    now rewrite (filter_absent Time_Visitante t _ E).
Qed.



End TeamTotals.


Lemma sum_int64_nil : sum_int64 [] = 0.
Proof. reflexivity. Qed.

Lemma sum_float_nil : sum_float [] = 0.
Proof. reflexivity. Qed.



(* ------------------------------------------------------------------ *)
(** ** Champions *)

(** *** The order on season labels *)

Lemma compare_as_OT (a b : string) :
  String.compare a b = String_as_OT.compare a b.
Proof.
  revert b. induction a as [|c a IH]; destruct b as [|c' b]; simpl;
    try reflexivity.
  all: change (Ascii_as_OT.compare c c') with (Ascii.compare c c').
  all: rewrite IH; now destruct (Ascii.compare c c').
Qed.

Lemma compare_refl (a : string) : String.compare a a = Eq.
Proof.
  induction a as [|c a IH]; simpl; [reflexivity|].
  unfold Ascii.compare. now rewrite N.compare_refl.
Qed.

Lemma compare_lt_trans (a b c : string) :
  String.compare a b = Lt -> String.compare b c = Lt ->
  String.compare a c = Lt.
Proof.
  rewrite !compare_as_OT.
  exact (StrictOrder_Transitive (R := String_as_OT.lt) a b c).
Qed.

Lemma compare_gt_lt (a b : string) :
  String.compare a b = Gt -> String.compare b a = Lt.
Proof.
  intros H. rewrite String.compare_antisym, H. reflexivity.
Qed.

Lemma champion_leb_total (x y : champion_row) :
  champion_leb x y = true \/ champion_leb y x = true.
Proof.
  unfold champion_leb.
  destruct (String.compare (ch_Temporada x) (ch_Temporada y)) eqn:E.
  - rewrite String.compare_antisym, E. simpl.
    destruct (Z.leb_spec (ch_Vitoria_Casa y) (ch_Vitoria_Casa x)); [now left|].
    right. apply Z.leb_le. lia.
  - now left.
  - right. now rewrite (compare_gt_lt _ _ E).
Qed.

Lemma champion_leb_trans (x y z : champion_row) :
  champion_leb x y = true -> champion_leb y z = true ->
  champion_leb x z = true.
Proof.
  unfold champion_leb.
  destruct (String.compare (ch_Temporada x) (ch_Temporada y)) eqn:Exy;
    [|  |discriminate];
    destruct (String.compare (ch_Temporada y) (ch_Temporada z)) eqn:Eyz;
    try discriminate; intros Hxy Hyz.
  - apply String.compare_eq_iff in Exy, Eyz. rewrite Exy, Eyz, compare_refl.
    apply Z.leb_le in Hxy, Hyz. apply Z.leb_le. lia.
  - apply String.compare_eq_iff in Exy. now rewrite Exy, Eyz.
  - apply String.compare_eq_iff in Eyz. now rewrite <- Eyz, Exy.
  - now rewrite (compare_lt_trans _ _ _ Exy Eyz).
Qed.


Lemma pair_eqb_eq (a b : string * string) : pair_eqb a b = true <-> a = b.
Proof.
  destruct a as [a1 a2], b as [b1 b2]. unfold pair_eqb. simpl.
  rewrite andb_true_iff, !String.eqb_eq. split.
  - intros [-> ->]. reflexivity.
  - intros H. inversion H. auto.
Qed.

(** *** The first row of every season *)

Lemma head1_In (seen : list string) (l : list champion_row)
  (x : champion_row) :
  In x (head1 seen l) ->
  ~ In (ch_Temporada x) seen
  /\ exists l1 l2,
       l = (l1 ++ x :: l2)%list
       /\ forall y, In y l1 -> ch_Temporada y <> ch_Temporada x.
Proof.
  revert seen. induction l as [|a l IH]; intros seen; simpl; [tauto|].
  destruct (str_mem (ch_Temporada a) seen) eqn:E.
  - intros H. destruct (IH seen H) as [Hs [l1 [l2 [-> Hl1]]]].
    split; [assumption|]. exists (a :: l1), l2. split; [reflexivity|].
    intros y [<- | Hy]; [|now apply Hl1].
    apply str_mem_In in E. congruence.
  - apply str_mem_false in E. intros [<- | H].
    + split; [assumption|]. exists [], l. split; [reflexivity|].
      intros y [].
    + destruct (IH _ H) as [Hs [l1 [l2 [-> Hl1]]]]. simpl in Hs.
      split; [tauto|]. exists (a :: l1), l2. split; [reflexivity|].
      intros y [<- | Hy]; [tauto | now apply Hl1].
Qed.

Lemma head1_complete (seen : list string) (l : list champion_row)
  (y : champion_row) :
  In y l -> ~ In (ch_Temporada y) seen ->
  exists x, In x (head1 seen l) /\ ch_Temporada x = ch_Temporada y.
Proof.
  revert seen. induction l as [|a l IH]; intros seen; simpl; [tauto|].
  intros Hy Hs. destruct (str_mem (ch_Temporada a) seen) eqn:E.
  - destruct Hy as [-> | Hy].
    + apply str_mem_In in E. contradiction.
    + now apply IH.
  - destruct (String.eqb_spec (ch_Temporada a) (ch_Temporada y))
      as [Ea | Ea].
    + exists a. split; [now left | assumption].
    + destruct Hy as [-> | Hy]; [congruence|].
      destruct (IH (ch_Temporada a :: seen) Hy) as [x [Hx Ex]].
      { simpl. intros [H | H]; [congruence | contradiction]. }
      exists x. split; [now right | assumption].
Qed.


(** *** Home wins of a team in a season *)



Lemma vitorias_casa_por_temporada_In (d : DataFrame) (x : champion_row) :
  In x (vitorias_casa_por_temporada d)
  <-> joga_em_casa d (ch_Temporada x) (ch_Time_Casa x)
      /\ ch_Vitoria_Casa x
         = sum_int64
             (map Vitoria_Casa
                (filter (fun r => pair_eqb (Temporada r, Time_Casa r)
                                           (ch_Temporada x, ch_Time_Casa x))
                        (rows d))).
Proof.
  unfold vitorias_casa_por_temporada, joga_em_casa.
  rewrite in_map_iff. split.
  - intros [[s t] [<- Hk]]. simpl.
    rewrite sort_by_In, (unique_by_In pair_eqb pair_eqb_eq), in_map_iff in Hk.
    destruct Hk as [r [E Hr]]. inversion E; subst.
    split; [exists r; auto | reflexivity].
  - intros [[r [Hr [Es Et]]] Ew].
    exists (ch_Temporada x, ch_Time_Casa x). split.
    + destruct x as [s t w]. simpl in *. now rewrite Ew.
    + rewrite sort_by_In, (unique_by_In pair_eqb pair_eqb_eq), in_map_iff.
      exists r. split; [congruence | assumption].
Qed.


Lemma champions_In (d : DataFrame) (x : champion_row) :
  In x (champions d) -> In x (vitorias_casa_por_temporada d).
Proof.
  unfold champions. intros Hx.
  destruct (head1_In _ _ _ Hx) as [_ [l1 [l2 [Hl _]]]].
  apply (sort_by_In champion_leb). rewrite Hl.
  apply in_or_app. right. now left.
Qed.

Lemma champions_every_season (d : DataFrame) (y : champion_row) :
  In y (vitorias_casa_por_temporada d) ->
  exists x, In x (champions d) /\ ch_Temporada x = ch_Temporada y.
Proof.
  intros Hy. unfold champions. apply head1_complete; [|tauto].
  now apply sort_by_In.
Qed.



(** *** Which of the tied teams is selected *)

Lemma string_leb_refl (a : string) : String.leb a a = true.
Proof. unfold String.leb. now rewrite compare_refl. Qed.

Lemma string_leb_trans (a b c : string) :
  String.leb a b = true -> String.leb b c = true -> String.leb a c = true.
Proof.
  unfold String.leb.
  destruct (String.compare a b) eqn:Eab; try discriminate;
    destruct (String.compare b c) eqn:Ebc; try discriminate; intros _ _.
  - apply String.compare_eq_iff in Eab, Ebc. subst.
    now rewrite compare_refl.
  - apply String.compare_eq_iff in Eab. subst. now rewrite Ebc.
  - apply String.compare_eq_iff in Ebc. subst. now rewrite Eab.
  - now rewrite (compare_lt_trans _ _ _ Eab Ebc).
Qed.






Lemma filter_none {A : Type} (p : A -> bool) (l : list A) :
  (forall z, In z l -> p z = false) -> filter p l = [].
Proof.
  induction l as [|a l IH]; intros H; simpl; [reflexivity|].
  rewrite (H a (or_introl eq_refl)). apply IH. intros z Hz. apply H.
  now right.
Qed.










Example champions_empatado :
  exists d, load_data csv_empatado = Ok d
            /\ map ch_Time_Casa (champions d) = ["Arsenal"]
            /\ e_campeao d "Chelsea" = false.
Proof.
  eexists. split; [vm_compute; reflexivity|].
  split; vm_compute; reflexivity.
Qed.

(* ================================================================== *)
(** * Further properties of the script *)

(* ------------------------------------------------------------------ *)
(** ** The loader: success, failure and what the table holds *)






Lemma mapM_Forall2 {A B : Type} (f : A -> result B) (l : list A)
  (bs : list B) :
  mapM f l = Ok bs -> Forall2 (fun a b => f a = Ok b) l bs.
Proof.
  revert bs. induction l as [|a l IH]; simpl; intros bs H.
  - inversion H. constructor.
  - destruct (f a) eqn:E; simpl in H; [|discriminate].
    destruct (mapM f l); simpl in H; [|discriminate].
    inversion H. constructor; [exact E | now apply IH].
Qed.

Lemma Forall2_carregado_datas (P : RawRow -> Match -> Prop) (csv : RawFrame)
  (datas : list (option date)) :
  mapM to_datetime (map Date (raw_rows csv)) = Ok datas ->
  (forall raw dt, to_datetime (Date raw) = Ok dt -> P raw (features raw dt)) ->
  Forall2 P (raw_rows csv) (carregado csv datas).
Proof.
  intros D H. apply mapM_Forall2 in D. unfold carregado.
  revert datas D. induction (raw_rows csv) as [|raw l IH];
    intros datas D; inversion D; subst; simpl; constructor.
  - now apply H.
  - now apply IH.
Qed.

(** X3.  A successful load keeps the records of the file one for one and
    in order: the table has as many rows as the file has records, and each
    row carries the season and the goals of its record, its parsed date,
    and its team names after the alias replacement. *)
Theorem X3_load_data_preserva_registros :
  forall (csv : RawFrame) (d : DataFrame),
    load_data csv = Ok d ->
    List.length (rows d) = List.length (raw_rows csv)
    /\ Forall2 (fun raw r =>
                  Temporada r = Season raw
                  /\ Gols_Time_Casa r = FTH_Goals raw
                  /\ Gols_Time_Visitante r = FTA_Goals raw
                  /\ to_datetime (Date raw) = Ok (Data r)
                  /\ Time_Casa r = replace team_mapping (HomeTeam raw)
                  /\ Time_Visitante r = replace team_mapping (AwayTeam raw)
                  /\ Campeao r = None)
               (raw_rows csv) (rows d).
Proof.
  intros csv d H. apply load_data_inv in H.
  destruct H as [_ [datas [Hd ->]]].
  assert (F : Forall2 (fun raw r =>
                  Temporada r = Season raw
                  /\ Gols_Time_Casa r = FTH_Goals raw
                  /\ Gols_Time_Visitante r = FTA_Goals raw
                  /\ to_datetime (Date raw) = Ok (Data r)
                  /\ Time_Casa r = replace team_mapping (HomeTeam raw)
                  /\ Time_Visitante r = replace team_mapping (AwayTeam raw)
                  /\ Campeao r = None)
               (raw_rows csv) (carregado csv datas)).
  { apply Forall2_carregado_datas; [exact Hd|].
    intros raw dt Hdt. cbn. repeat split. exact Hdt. }
  split; [|exact F].
  symmetry. exact (Forall2_length F).
Qed.

Lemma X3_load_data_preserva_registros_witness :
  List.length (rows df_exemplo) = List.length (raw_rows csv_exemplo).
Proof.
  apply (X3_load_data_preserva_registros csv_exemplo df_exemplo).
  vm_compute. reflexivity.
Defined.


Lemma In_setitem (c : list string) (label x : string) :
  In x (setitem c label) <-> In x c \/ x = label.
Proof.
  rewrite <- !str_mem_In, str_mem_setitem, orb_true_iff, String.eqb_eq.
  tauto.
Qed.

Lemma In_fold_setitem (labels c : list string) (x : string) :
  In x (fold_left setitem labels c) <-> In x c \/ In x labels.
Proof.
  revert c. induction labels as [|l labels IH]; intros c; simpl; [tauto|].
  rewrite IH, In_setitem. intuition congruence.
Qed.

Lemma load_data_columns (csv : RawFrame) (d : DataFrame) :
  load_data csv = Ok d ->
  columns d
  = fold_left setitem colunas_derivadas
      (map (rename rename_table) (raw_columns csv)).
Proof.
  intros H. unfold load_data in H. bind_inv H.
  inversion H; subst; clear H. cbn [columns].
  header_facts. unfold colunas_estatisticas in *. header_facts.
  repeat match goal with
         | H : str_mem ?l ?c = true |- _ =>
             rewrite (setitem_present c l H) in *; clear H
         end.
  reflexivity.
Qed.

Lemma dict_get_None (d : list (string * string)) (k : string) :
  dict_get d k = None -> ~ In k (map fst d).
Proof.
  induction d as [|[k' v'] d IH]; simpl; [tauto|].
  destruct (String.eqb_spec k k') as [-> | Hne]; [discriminate|].
  intros H [E | Hin]; [congruence | now apply IH].
Qed.

Lemma rename_not_source (x : string) :
  ~ In (rename rename_table x) (map fst rename_table).
Proof.
  unfold rename. destruct (dict_get rename_table x) as [v|] eqn:E.
  - apply dict_get_In in E.
    assert (Hv : In v (map snd rename_table))
      by (apply in_map_iff; now exists (x, v)).
    clear E. intros Hk. revert Hv Hk. generalize v. clear.
    intros v Hv Hk. apply str_mem_In in Hv, Hk.
    assert (D : forallb (fun v => negb (str_mem v (map fst rename_table)))
                        (map snd rename_table) = true)
      by (vm_compute; reflexivity).
    rewrite forallb_forall in D. apply str_mem_In in Hv.
    specialize (D v Hv). now rewrite Hk in D.
  - now apply dict_get_None.
Qed.

(** X4.  The header of the loaded table is the renamed header of the file
    followed by the ten derived columns: every column of the file is there
    under its new name, every derived column exists, no column keeps one of
    the source names of the renaming table, and nothing else is added. *)
Theorem X4_load_data_colunas :
  forall (csv : RawFrame) (d : DataFrame),
    load_data csv = Ok d ->
    (forall c, In c (columns d)
               <-> In c (map (rename rename_table) (raw_columns csv))
                   \/ In c colunas_derivadas)
    /\ (forall l, In l (raw_columns csv) ->
                  In (rename rename_table l) (columns d))
    /\ (forall k, In k (map fst rename_table) -> ~ In k (columns d))
    /\ Forall (fun c => In c (columns d)) colunas_lidas.
Proof.
  intros csv d H.
  pose proof (load_data_columns csv d H) as Hc.
  assert (I : forall c, In c (columns d)
                        <-> In c (map (rename rename_table) (raw_columns csv))
                            \/ In c colunas_derivadas).
  { intros c. rewrite Hc. apply In_fold_setitem. }
  split; [exact I|]. split; [|split].
  - intros l Hl. apply I. left. now apply in_map.
  - intros k Hk Hin. apply I in Hin. destruct Hin as [Hin | Hin].
    + apply in_map_iff in Hin. destruct Hin as [x [<- _]].
      exact (rename_not_source x Hk).
    + apply str_mem_In in Hk, Hin. revert Hk Hin. generalize k. clear.
      intros k Hk Hin.
      assert (D : forallb (fun c => negb (str_mem c (map fst rename_table)))
                          colunas_derivadas = true)
        by (vm_compute; reflexivity).
      rewrite forallb_forall in D. apply str_mem_In in Hin.
      specialize (D k Hin). now rewrite Hk in D.
  - apply load_data_inv in H. destruct H as [[_ C] _].
    rewrite Forall_forall in *. intros c Hin. apply I. left.
    apply str_mem_In. now apply C.
Qed.

Lemma X4_load_data_colunas_witness :
  Forall (fun c => In c (columns df_exemplo)) colunas_lidas.
Proof.
  apply (X4_load_data_colunas csv_exemplo df_exemplo).
  vm_compute. reflexivity.
Defined.

Lemma replace_team_mapping_novo (x : string) :
  ~ In (replace team_mapping x) nomes_antigos.
Proof.
  unfold replace, team_mapping, nomes_antigos. simpl.
  destruct (String.eqb_spec x "Brighton") as [-> | H1].
  - simpl. intuition discriminate.
  - destruct (String.eqb_spec x "Ipswich") as [-> | H2].
    + simpl. intuition discriminate.
    + simpl. intuition congruence.
Qed.

Lemma replace_team_mapping_idem (x : string) :
  replace team_mapping (replace team_mapping x) = replace team_mapping x.
Proof.
  unfold replace, team_mapping. simpl.
  destruct (String.eqb_spec x "Brighton") as [-> | H1]; [reflexivity|].
  destruct (String.eqb_spec x "Ipswich") as [-> | H2]; [reflexivity|].
  simpl.
  destruct (String.eqb_spec x "Brighton"); [contradiction|].
  destruct (String.eqb_spec x "Ipswich"); [contradiction|]. reflexivity.
Qed.

(** X5.  After the load no team goes by one of the old names of the alias
    table ("Brighton", "Ipswich"): not in a home or away column of any row,
    and so not among the teams any page offers for either scope.  A name
    that is not an alias is kept, and replacing twice changes nothing. *)
Theorem X5_nomes_normalizados :
  forall (csv : RawFrame) (d : DataFrame),
    load_data csv = Ok d ->
    Forall (fun r => ~ In (Time_Casa r) nomes_antigos
                     /\ ~ In (Time_Visitante r) nomes_antigos) (rows d)
    /\ (forall analise_tipo t,
           In t (todos_times (select_df_analise analise_tipo d)) ->
           ~ In t nomes_antigos)
    /\ (forall x, ~ In x nomes_antigos -> replace team_mapping x = x)
    /\ (forall x, replace team_mapping (replace team_mapping x)
                  = replace team_mapping x).
Proof.
  intros csv d H.
  assert (F : Forall (fun r => ~ In (Time_Casa r) nomes_antigos
                               /\ ~ In (Time_Visitante r) nomes_antigos)
                     (rows d)).
  { apply Forall_forall. intros r Hr.
    destruct (load_data_rows_In csv d r H Hr) as [raw [dt [_ ->]]].
    cbn [features Time_Casa Time_Visitante].
    split; apply replace_team_mapping_novo. }
  split; [exact F|]. split; [|split].
  - intros analise_tipo t Ht. rewrite Forall_forall in F.
    apply todos_times_In in Ht. rewrite !in_map_iff in Ht.
    assert (S : forall r, In r (rows (select_df_analise analise_tipo d)) ->
                          In r (rows d)).
    { intros r. destruct analise_tipo; cbn; [tauto|].
      rewrite filter_In. tauto. }
    destruct Ht as [[r [<- Hr]] | [r [<- Hr]]]; apply (F r (S r Hr)).
  - intros x Hx. unfold replace, team_mapping, nomes_antigos in *.
    simpl in *.
    destruct (String.eqb_spec x "Brighton") as [-> | _]; [tauto|].
    destruct (String.eqb_spec x "Ipswich") as [-> | _]; [tauto|].
    reflexivity.
  - exact replace_team_mapping_idem.
Qed.

Lemma X5_nomes_normalizados_witness :
  Forall (fun r => ~ In (Time_Casa r) nomes_antigos
                   /\ ~ In (Time_Visitante r) nomes_antigos)
         (rows df_exemplo).
Proof.
  apply (X5_nomes_normalizados csv_exemplo df_exemplo).
  vm_compute. reflexivity.
Defined.

(* ------------------------------------------------------------------ *)
(** ** Scopes and the quality warning *)

Lemma load_data_periodo_ok (csv : RawFrame) (d : DataFrame) :
  load_data csv = Ok d -> Forall periodo_ok (rows d).
Proof.
  intros H. apply load_data_inv in H. destruct H as [_ [datas [_ ->]]].
  apply Forall_carregado. intros. reflexivity.
Qed.

Lemma temporada_incompleta_antiga (temp : string) :
  str_mem temp temporadas_incompletas = true ->
  String.leb "2000/01" temp = false.
Proof.
  intros H. apply str_mem_In in H. unfold temporadas_incompletas in H.
  simpl in H.
  repeat (destruct H as [<- | H]; [vm_compute; reflexivity|]).
  destruct H.
Qed.

(** X6.  The detailed scope works on exactly the rows of the loaded table
    whose season is "2000/01" or later, in their order and under the same
    header; the historical scope works on all of them.  In the detailed
    scope the methodological warning of [alerta_qualidade_dados] is never
    shown. *)
Theorem X6_escopo_e_alerta :
  forall (csv : RawFrame) (d : DataFrame),
    load_data csv = Ok d ->
    rows (select_df_analise Detalhadas_Pos_2000 d)
    = filter (fun r => String.leb "2000/01" (Temporada r)) (rows d)
    /\ select_df_analise Historica_Completa d = d
    /\ columns (select_df_analise Detalhadas_Pos_2000 d) = columns d
    /\ alerta_qualidade_dados (select_df_analise Detalhadas_Pos_2000 d)
       = false.
Proof.
  intros csv d H. apply load_data_periodo_ok in H.
  rewrite Forall_forall in H.
  assert (E : rows (select_df_analise Detalhadas_Pos_2000 d)
              = filter (fun r => String.leb "2000/01" (Temporada r))
                       (rows d)).
  { cbn. apply filter_ext_in. intros r Hr. exact (H r Hr). }
  split; [exact E|]. split; [now destruct d|]. split; [reflexivity|].
  unfold alerta_qualidade_dados. apply not_true_iff_false.
  rewrite existsb_exists. intros [temp [Hin Hm]].
  apply temporada_incompleta_antiga in Hm.
  rewrite unique_In, E, in_map_iff in Hin.
  destruct Hin as [r [<- Hr]]. apply filter_In in Hr.
  destruct Hr as [_ Hr]. congruence.
Qed.

Lemma X6_escopo_e_alerta_witness :
  alerta_qualidade_dados (select_df_analise Detalhadas_Pos_2000 df_exemplo)
  = false.
Proof.
  apply (X6_escopo_e_alerta csv_exemplo df_exemplo).
  vm_compute. reflexivity.
Defined.

(* ------------------------------------------------------------------ *)
(** ** The select boxes of the team pages *)

Section SortFilter.
Context {A : Type}.
Variable leb : A -> A -> bool.
Hypothesis leb_trans :
  forall x y z, leb x y = true -> leb y z = true -> leb x z = true.

Lemma filter_insert_sorted (p : A -> bool) (a : A) (l : list A) :
  StronglySorted (fun x y => leb x y = true) l ->
  filter p (insert_sorted leb a l)
  = if p a then insert_sorted leb a (filter p l) else filter p l.
Proof.
  induction 1 as [|b l Hs IH Hb]; cbn [insert_sorted filter].
  - now destruct (p a).
  - destruct (leb a b) eqn:Hab.
    + cbn [filter]. destruct (p a) eqn:Pa; [|reflexivity].
      destruct (p b) eqn:Pb.
      * cbn [insert_sorted]. now rewrite Hab.
      * clear IH. induction l as [|c l IHl]; [reflexivity|].
        cbn [filter]. inversion Hb as [|? ? Hbc Hb']; subst.
        inversion Hs as [|? ? Hs' Hc]; subst.
        destruct (p c).
        -- cbn [insert_sorted]. now rewrite (leb_trans a b c Hab Hbc).
        -- now apply IHl.
    + cbn [filter]. rewrite IH. destruct (p a), (p b); try reflexivity.
      cbn [insert_sorted]. now rewrite Hab.
Qed.

Hypothesis leb_total : forall x y, leb x y = true \/ leb y x = true.

(** Selecting before or after sorting gives the same list. *)
Lemma filter_sort_by (p : A -> bool) (l : list A) :
  filter p (sort_by leb l) = sort_by leb (filter p l).
Proof.
  induction l as [|a l IH]; [reflexivity|].
  cbn [sort_by filter].
  rewrite filter_insert_sorted
    by (apply sort_by_sorted; assumption).
  rewrite IH. now destruct (p a).
Qed.
End SortFilter.

Lemma unique_by_NoDup {A : Type} (eqb : A -> A -> bool) (l : list A) :
  (forall x y, eqb x y = true <-> x = y) -> NoDup (unique_by eqb l).
Proof.
  intros Hspec. induction l as [|a l IH]; simpl; constructor.
  - rewrite filter_In. intros [_ H].
    rewrite (proj2 (Hspec a a) eq_refl) in H. discriminate.
  - now apply NoDup_filter.
Qed.

Lemma string_leb_lt (a b : string) :
  String.leb a b = true -> a <> b -> String.compare a b = Lt.
Proof.
  unfold String.leb. destruct (String.compare a b) eqn:E; try discriminate.
  - apply String.compare_eq_iff in E. contradiction.
  - reflexivity.
Qed.

Lemma sorted_strict (l : list string) :
  NoDup l ->
  StronglySorted (fun a b => String.compare a b = Lt) (sorted l).
Proof.
  intros N.
  assert (N' : NoDup (sorted l))
    by (apply (Permutation_NoDup (l := l));
        [symmetry; apply sort_by_perm | exact N]).
  pose proof (sort_by_sorted String.leb String.leb_total string_leb_trans l)
    as S.
  fold (sorted l) in S.
  induction S as [|a m _ IH Ha]; constructor.
  - apply IH. now inversion N'.
  - inversion N' as [|? ? Hnin _]; subst.
    rewrite Forall_forall in *. intros b Hb.
    apply string_leb_lt; [now apply Ha|]. congruence.
Qed.

Lemma todos_times_NoDup (d : DataFrame) : NoDup (todos_times d).
Proof.
  apply (Permutation_NoDup (l := unique (unique (map Time_Casa (rows d))
                                 ++ unique (map Time_Visitante (rows d)))));
    [symmetry; apply sort_by_perm | apply unique_by_NoDup, String.eqb_eq].
Qed.

(** X7.  The team options of the select boxes are in strictly increasing
    order, hence without duplicates, and are exactly the teams that appear
    in the slice as home or away team; their number is the "unique teams"
    counter of the overview page. *)
Theorem X7_todos_times_ordenado :
  forall (d : DataFrame),
    StronglySorted (fun a b => String.compare a b = Lt) (todos_times d)
    /\ NoDup (todos_times d)
    /\ (forall t, In t (todos_times d)
                  <-> exists r, In r (rows d)
                                /\ (Time_Casa r = t \/ Time_Visitante r = t))
    /\ len (todos_times d) = times_unicos d.
Proof.
  intros d.
  assert (N : NoDup (unique (unique (map Time_Casa (rows d))
                             ++ unique (map Time_Visitante (rows d)))))
    by (apply unique_by_NoDup, String.eqb_eq).
  split; [now apply sorted_strict|]. split; [|split].
  - apply todos_times_NoDup.
  - intros t. rewrite todos_times_In, !in_map_iff. split.
    + intros [[r [E Hr]] | [r [E Hr]]]; exists r; auto.
    + intros [r [Hr [E | E]]]; [left | right]; exists r; auto.
  - unfold times_unicos, todos_times, sorted, len. f_equal.
    apply Permutation_length, sort_by_perm.
Qed.

(** X8.  The adversary box of the team page and the second-team box of the
    comparison page offer the same list: the teams of the slice other than
    the selected one, in increasing order.  So the two teams of a
    head-to-head or of a comparison are always different teams of the
    slice, and the performance percentage of the second one is defined. *)
Theorem X8_adversarios :
  forall (d : DataFrame) (time1 time2 : string),
    outros_times d time1 = adversarios_opcoes d time1
    /\ (In time2 (adversarios_opcoes d time1)
        <-> In time2 (todos_times d) /\ time2 <> time1)
    /\ (In time2 (outros_times d time1) ->
        time2 <> time1
        /\ 0 < len (rows (jogos_time d time2))
        /\ exists q, aproveitamento d time2 = Ok q)
    /\ NoDup (outros_times d time1).
Proof.
  intros d time1 time2.
  assert (E : outros_times d time1 = adversarios_opcoes d time1).
  { unfold outros_times, adversarios_opcoes, todos_times, sorted.
    symmetry. apply filter_sort_by.
    - exact string_leb_trans.
    - exact String.leb_total. }
  assert (M : In time2 (adversarios_opcoes d time1)
              <-> In time2 (todos_times d) /\ time2 <> time1).
  { unfold adversarios_opcoes.
    rewrite filter_In, negb_true_iff, String.eqb_neq. tauto. }
  split; [exact E|]. split; [exact M|]. split.
  - rewrite E. intros H. apply M in H. destruct H as [Hin Hne].
    split; [exact Hne|].
    pose proof (jogos_time_pos d time2 Hin) as Hpos.
    split; [exact Hpos|].
    unfold aproveitamento. rewrite percentual_value by lia. eauto.
  - rewrite E. unfold adversarios_opcoes. apply NoDup_filter.
    apply todos_times_NoDup.
Qed.

Lemma X8_adversarios_witness :
  "Chelsea" <> "Arsenal"
  /\ 0 < len (rows (jogos_time df_exemplo "Chelsea"))
  /\ exists q, aproveitamento df_exemplo "Chelsea" = Ok q.
Proof.
  apply (proj1 (proj2 (proj2
           (X8_adversarios df_exemplo "Arsenal" "Chelsea")))).
  vm_compute. tauto.
Defined.

(* ------------------------------------------------------------------ *)
(** ** The head-to-head scoreboard *)

Lemma confrontos_sym (d : DataFrame) (a b : string) :
  confrontos d a b = confrontos d b a.
Proof.
  unfold confrontos, mask. f_equal. apply filter_ext.
  intros r. apply orb_comm.
Qed.

Lemma length_filter_4 {A : Type} (p1 p2 p3 p4 : A -> bool) (l : list A) :
  (forall r, In r l ->
             (Nat.b2n (p1 r) + Nat.b2n (p2 r) + Nat.b2n (p3 r)
              + Nat.b2n (p4 r) = 1)%nat) ->
  (List.length l
   = List.length (filter p1 l) + List.length (filter p2 l)
     + List.length (filter p3 l) + List.length (filter p4 l))%nat.
Proof.
  induction l as [|r l IH]; intros H; [reflexivity|].
  specialize (IH (fun x Hx => H x (or_intror Hx))).
  specialize (H r (or_introl eq_refl)).
  cbn [filter List.length].
  destruct (p1 r), (p2 r), (p3 r), (p4 r); cbn [Nat.b2n] in H;
    cbn [List.length]; lia.
Qed.

Lemma confronto_um_desfecho (time adv : string) (r : Match) :
  time <> adv ->
  (Time_Casa r = time /\ Time_Visitante r = adv)
  \/ (Time_Casa r = adv /\ Time_Visitante r = time) ->
  (Nat.b2n (venceu time r) + Nat.b2n (empatou r) + Nat.b2n (venceu adv r)
   + Nat.b2n (sem_rotulo r) = 1)%nat.
Proof.
  intros Hne H. unfold venceu, empatou, sem_rotulo, label_is.
  assert (E1 : String.eqb time adv = false) by now apply String.eqb_neq.
  assert (E2 : String.eqb adv time = false)
    by (apply String.eqb_neq; congruence).
  destruct H as [[-> ->] | [-> ->]];
    rewrite ?String.eqb_refl, ?E1, ?E2;
    (destruct (Resultado_Final r) as [s|]; [|reflexivity]);
    destruct (String.eqb_spec s "Vitória Casa") as [-> | N1];
    try reflexivity;
    destruct (String.eqb_spec s "Vitória Visitante") as [-> | N2];
    try reflexivity;
    destruct (String.eqb_spec s "Empate") as [-> | N3]; reflexivity.
Qed.

Lemma confrontos_contagem (d : DataFrame) (time adv : string) :
  time <> adv ->
  let c := confrontos d time adv in
  len (rows c)
  = vitorias time c + empates c + vitorias adv c
    + len (filter sem_rotulo (rows c)).
Proof.
  intros Hne c. unfold vitorias, empates, mask, len. cbn [rows].
  rewrite (length_filter_4 (venceu time) empatou (venceu adv) sem_rotulo
             (rows c)).
  - lia.
  - intros r Hr. apply confronto_um_desfecho; [exact Hne|].
    apply confrontos_In in Hr. tauto.
Qed.

(** X9.  In the head-to-head scoreboard of two different teams the third
    counter, computed as games minus wins of the selected team minus draws,
    is the number of wins of the adversary plus the number of games whose
    result label is missing: such a game is counted as a win of the
    adversary.  The three counters are never negative and add up to the
    number of games. *)
Theorem X9_placar_dos_confrontos :
  forall (d : DataFrame) (time adv : string) (v e w : Z),
    time <> adv ->
    confrontos_diretos d time adv = Placar v e w ->
    let c := confrontos d time adv in
    v = vitorias time c
    /\ e = empates c
    /\ w = vitorias adv c + len (filter sem_rotulo (rows c))
    /\ 0 <= v /\ 0 <= e /\ 0 <= w
    /\ v + e + w = len (rows c)
    /\ 0 < len (rows c).
Proof.
  intros d time adv v e w Hne H.
  pose proof (confrontos_contagem d time adv Hne) as K.
  unfold confrontos_diretos in H. cbv zeta in *.
  set (c := confrontos d time adv) in *.
  destruct (len (rows c) >? 0) eqn:G; [|discriminate].
  apply Z.gtb_lt in G.
  inversion H; subst v e w; clear H.
  pose proof (vitorias_nonneg time c). pose proof (empates_nonneg c).
  pose proof (vitorias_nonneg adv c).
  pose proof (len_nonneg (filter sem_rotulo (rows c))).
  change (filter (fun r => em_casa time r && fora adv r
                           || em_casa adv r && fora time r) (rows d))
    with (rows c).
  repeat split; lia.
Qed.

Lemma X9_placar_dos_confrontos_witness :
  1 = vitorias "Arsenal" (confrontos df_exemplo "Arsenal" "Chelsea")
  /\ 1 = empates (confrontos df_exemplo "Arsenal" "Chelsea").
Proof.
  destruct (X9_placar_dos_confrontos df_exemplo "Arsenal" "Chelsea" 1 1 0)
    as [Hv [He _]].
  - discriminate.
  - vm_compute. reflexivity.
  - split; assumption.
Defined.

(** X10.  When every game between two different teams has a result label,
    asking for the head-to-head in the other direction shows the mirrored
    scoreboard: the wins of the two teams swapped, the draws unchanged. *)
Theorem X10_placar_espelhado :
  forall (d : DataFrame) (time adv : string) (v e w : Z),
    time <> adv ->
    Forall (fun r => sem_rotulo r = false) (rows (confrontos d time adv)) ->
    confrontos_diretos d time adv = Placar v e w ->
    confrontos_diretos d adv time = Placar w e v.
Proof.
  intros d time adv v e w Hne Hl H.
  pose proof (confrontos_contagem d time adv Hne) as K. cbv zeta in K.
  assert (Z0 : len (filter sem_rotulo (rows (confrontos d time adv))) = 0).
  { unfold len. rewrite (filter_none sem_rotulo); [reflexivity|].
    rewrite Forall_forall in Hl. exact Hl. }
  unfold confrontos_diretos in *. rewrite (confrontos_sym d adv time).
  cbv zeta in *. set (c := confrontos d time adv) in *.
  destruct (len (rows c) >? 0); [|discriminate].
  inversion H; subst v e w; clear H.
  change (filter (fun r => em_casa time r && fora adv r
                           || em_casa adv r && fora time r) (rows d))
    with (rows c).
  f_equal; lia.
Qed.

Lemma X10_placar_espelhado_witness :
  confrontos_diretos df_exemplo "Chelsea" "Arsenal" = Placar 0 1 1.
Proof.
  apply (X10_placar_espelhado df_exemplo "Arsenal" "Chelsea" 1 1 0).
  - discriminate.
  - vm_compute. repeat constructor.
  - vm_compute. reflexivity.
Defined.

(* ------------------------------------------------------------------ *)
(** ** The statistics of a team across pages *)

Lemma filter_filter_sub {A : Type} (p q : A -> bool) (l : list A) :
  (forall x, p x = true -> q x = true) ->
  filter p (filter q l) = filter p l.
Proof.
  intros H. induction l as [|a l IH]; simpl; [reflexivity|].
  destruct (q a) eqn:Q; simpl.
  - now rewrite IH.
  - destruct (p a) eqn:P; [|exact IH].
    rewrite (H a P) in Q. discriminate.
Qed.

Lemma em_casa_jogos_time (d : DataFrame) (t : string) :
  rows (mask (em_casa t) (jogos_time d t)) = filter (em_casa t) (rows d).
Proof.
  unfold jogos_time, mask. cbn [rows]. apply filter_filter_sub.
  intros r H. unfold joga. unfold em_casa in H. now rewrite H.
Qed.

Lemma fora_jogos_time (d : DataFrame) (t : string) :
  rows (mask (fora t) (jogos_time d t)) = filter (fora t) (rows d).
Proof.
  unfold jogos_time, mask. cbn [rows]. apply filter_filter_sub.
  intros r H. unfold joga. unfold fora in H. rewrite H. apply orb_true_r.
Qed.

(** X11.  The pages agree on the totals of a team.  For every team of the
    slice, its entry in the merged series of the "top teams" chart is the
    "goals scored" counter of its team page, and the same holds for the
    yellow cards and the counter of the comparison page; restricting the
    slice to the games of the team first does not change the counters. *)
Theorem X11_totais_entre_paginas :
  forall (d : DataFrame) (t : string),
    In t (todos_times d) ->
    series_get (gols_somados d) t = Some (gols_marcados t (jogos_time d t))
    /\ series_get (amarelos_somados d) t
       = Some (cartoes_amarelos t (jogos_time d t))
    /\ Cartoes_Amarelos (calcular_estatisticas_avancadas t d)
       = cartoes_amarelos t (jogos_time d t)
    /\ gols_marcados t (jogos_time d t) = gols_marcados t d
    /\ gols_sofridos t (jogos_time d t) = gols_sofridos t d
    /\ chutes_gol_feitos t (jogos_time d t) = chutes_gol_feitos t d.
Proof.
  intros d t Ht. apply todos_times_In in Ht.
  assert (G : gols_marcados t (jogos_time d t) = gols_marcados t d).
  { unfold gols_marcados.
    now rewrite em_casa_jogos_time, fora_jogos_time. }
  assert (A : cartoes_amarelos t (jogos_time d t) = cartoes_amarelos t d).
  { unfold cartoes_amarelos.
    now rewrite em_casa_jogos_time, fora_jogos_time. }
  split; [|split; [|split; [|split; [|split]]]].
  - rewrite G.
    exact (somados_get add_int64
             (fun g => sum_int64 (map Gols_Time_Casa g))
             (fun g => sum_int64 (map Gols_Time_Visitante g))
             sum_int64_nil sum_int64_nil d t Ht).
  - rewrite A.
    exact (somados_get Z.add
             (fun g => sum_float (map Amarelos_Casa g))
             (fun g => sum_float (map Amarelos_Visitante g))
             sum_float_nil sum_float_nil d t Ht).
  - reflexivity.
  - exact G.
  - unfold gols_sofridos. now rewrite em_casa_jogos_time, fora_jogos_time.
  - unfold chutes_gol_feitos.
    now rewrite em_casa_jogos_time, fora_jogos_time.
Qed.

Lemma X11_totais_entre_paginas_witness :
  series_get (gols_somados df_exemplo) "Arsenal"
  = Some (gols_marcados "Arsenal" (jogos_time df_exemplo "Arsenal")).
Proof.
  apply (X11_totais_entre_paginas df_exemplo "Arsenal").
  apply (proj1 (str_mem_In "Arsenal" (todos_times df_exemplo))).
  vm_compute. reflexivity.
Defined.

Lemma wrap64_add_l (a b : Z) : wrap64 (wrap64 a + b) = wrap64 (a + b).
Proof.
  unfold wrap64.
  replace ((a + 2 ^ 63) mod 2 ^ 64 - 2 ^ 63 + b + 2 ^ 63)
    with ((a + 2 ^ 63) mod 2 ^ 64 + b) by lia.
  rewrite Zplus_mod_idemp_l. f_equal. f_equal. lia.
Qed.

Lemma wrap64_add_r (a b : Z) : wrap64 (a + wrap64 b) = wrap64 (a + b).
Proof. rewrite Z.add_comm, wrap64_add_l. f_equal. lia. Qed.

Lemma sum_int64_app (l1 l2 : list Z) :
  add_int64 (sum_int64 l1) (sum_int64 l2) = sum_int64 (l1 ++ l2).
Proof.
  unfold add_int64, sum_int64. rewrite wrap64_add_l, wrap64_add_r.
  f_equal. induction l1 as [|a l1 IH]; simpl; lia.
Qed.

Lemma sum_int64_wrap (f : Match -> Z) (l : list Match) :
  sum_int64 (map (fun r => wrap64 (f r)) l) = sum_int64 (map f l).
Proof.
  unfold sum_int64. induction l as [|r l IH]; [reflexivity|].
  cbn [map fold_right].
  rewrite wrap64_add_l, <- wrap64_add_r, IH, wrap64_add_r. reflexivity.
Qed.

Lemma sum_int64_plus (f g : Match -> Z) (l : list Match) :
  add_int64 (sum_int64 (map f l)) (sum_int64 (map g l))
  = sum_int64 (map (fun r => f r + g r) l).
Proof.
  unfold add_int64, sum_int64. rewrite wrap64_add_l, wrap64_add_r.
  f_equal. induction l as [|r l IH]; simpl; lia.
Qed.

Lemma sum_int64_perm (l1 l2 : list Z) :
  Permutation l1 l2 -> sum_int64 l1 = sum_int64 l2.
Proof.
  intros P. unfold sum_int64. f_equal.
  induction P; simpl; lia.
Qed.

Lemma filter_partition_perm {A : Type} (p q : A -> bool) (l : list A) :
  (forall x, In x l -> p x && q x = false) ->
  Permutation (filter (fun x => p x || q x) l) (filter p l ++ filter q l).
Proof.
  induction l as [|a l IH]; intros H; [reflexivity|].
  specialize (IH (fun x Hx => H x (or_intror Hx))).
  specialize (H a (or_introl eq_refl)).
  cbn [filter]. destruct (p a), (q a); try discriminate; cbn [orb].
  - cbn [app]. now constructor.
  - rewrite IH. apply Permutation_middle.
  - exact IH.
Qed.

(** X12.  On the team page, goals scored plus goals conceded is the sum of
    the column [Total_Gols] over the games of the team, in the [int64]
    arithmetic of the three sums -- provided no row has the team on both
    sides.  Every goal of a game of the team is counted once, either as
    scored or as conceded. *)
Theorem X12_gols_marcados_e_sofridos :
  forall (d : DataFrame) (t : string),
    Forall derivadas_ok (rows d) ->
    (forall r, In r (rows d) -> em_casa t r && fora t r = false) ->
    add_int64 (gols_marcados t (jogos_time d t))
              (gols_sofridos t (jogos_time d t))
    = sum_int64 (map Total_Gols (rows (jogos_time d t))).
Proof.
  intros d t Hd Hself.
  unfold gols_marcados, gols_sofridos.
  rewrite !em_casa_jogos_time, !fora_jogos_time.
  set (H := filter (em_casa t) (rows d)).
  set (A := filter (fora t) (rows d)).
  fold (add_int64 (sum_int64 (map Gols_Time_Casa H))
                  (sum_int64 (map Gols_Time_Visitante A))).
  fold (add_int64 (sum_int64 (map Gols_Time_Visitante H))
                  (sum_int64 (map Gols_Time_Casa A))).
  assert (T : sum_int64 (map Total_Gols (rows (jogos_time d t)))
              = sum_int64 (map (fun r => Gols_Time_Casa r
                                         + Gols_Time_Visitante r)
                               (H ++ A))).
  { transitivity
      (sum_int64 (map (fun r => wrap64 (Gols_Time_Casa r
                                        + Gols_Time_Visitante r))
                      (rows (jogos_time d t)))).
    - f_equal. apply map_ext_in. intros r Hr.
      unfold jogos_time, mask in Hr. cbn [rows] in Hr.
      apply filter_In in Hr. rewrite Forall_forall in Hd.
      apply (Hd r (proj1 Hr)).
    - rewrite sum_int64_wrap. apply sum_int64_perm, Permutation_map.
      unfold jogos_time, mask. cbn [rows].
      exact (filter_partition_perm (em_casa t) (fora t) (rows d) Hself). }
  rewrite T, map_app, <- sum_int64_app, <- !sum_int64_plus.
  unfold add_int64.
  repeat (rewrite ?wrap64_add_l, ?wrap64_add_r).
  f_equal. lia.
Qed.

Lemma X12_gols_marcados_e_sofridos_witness :
  add_int64 (gols_marcados "Arsenal" (jogos_time df_exemplo "Arsenal"))
            (gols_sofridos "Arsenal" (jogos_time df_exemplo "Arsenal"))
  = sum_int64 (map Total_Gols (rows (jogos_time df_exemplo "Arsenal"))).
Proof.
  apply (X12_gols_marcados_e_sofridos df_exemplo "Arsenal").
  - exact (load_data_derivadas_ok csv_exemplo df_exemplo eq_refl).
  - intros r Hr. vm_compute in Hr.
    repeat (destruct Hr as [<- | Hr]; [vm_compute; reflexivity|]).
    destruct Hr.
Defined.

(* ------------------------------------------------------------------ *)
(** ** The per-season tables *)

Lemma mapM_map {A B : Type} (f : A -> result B) (g : A -> B) (l : list A) :
  (forall a, In a l -> f a = Ok (g a)) -> mapM f l = Ok (map g l).
Proof.
  induction l as [|a l IH]; intros H; simpl; [reflexivity|].
  rewrite (H a (or_introl eq_refl)), IH; [reflexivity|].
  intros x Hx. apply H. now right.
Qed.

Lemma performance_data_eq (d : DataFrame) (time : string) :
  performance_data d time
  = Ok (map (entrada_temporada (jogos_time d time) time)
            (sorted (unique (map Temporada (rows (jogos_time d time)))))).
Proof.
  unfold performance_data. apply mapM_map.
  intros temp Hin. rewrite sorted_In, unique_In in Hin.
  apply temporada_pos in Hin.
  rewrite percentual_value by lia. reflexivity.
Qed.

Lemma length_filter_or {A : Type} (p q : A -> bool) (l : list A) :
  (forall x, In x l -> p x && q x = false) ->
  (List.length (filter p l) + List.length (filter q l)
   = List.length (filter (fun x => p x || q x) l))%nat.
Proof.
  induction l as [|a l IH]; intros H; [reflexivity|].
  specialize (IH (fun x Hx => H x (or_intror Hx))).
  specialize (H a (or_introl eq_refl)).
  cbn [filter]. destruct (p a), (q a); try discriminate; cbn [orb List.length];
    lia.
Qed.

(** Counting a list key by key, over distinct keys that cover it, counts
    every element once. *)
Lemma soma_por_chave (key : Match -> string) (ks : list string)
  (l : list Match) :
  NoDup ks ->
  (forall r, In r l -> In (key r) ks) ->
  soma (map (fun k => len (filter (fun r => String.eqb (key r) k) l)) ks)
  = len l.
Proof.
  intros N C.
  assert (G : forall ks, NoDup ks ->
                soma (map (fun k => len (filter (fun r => String.eqb (key r) k)
                                                l)) ks)
                = len (filter (fun r => str_mem (key r) ks) l)).
  { clear. intros ks N. induction N as [|k ks Hk N IH].
    - simpl. unfold len. now rewrite (filter_none (fun _ => false)).
    - cbn [map soma fold_right]. fold (soma (map (fun k => len (filter
        (fun r => String.eqb (key r) k) l)) ks)). rewrite IH.
      unfold len. rewrite <- Nat2Z.inj_add. f_equal.
      rewrite length_filter_or.
      2:{ intros r _. destruct (String.eqb_spec (key r) k) as [-> | _];
            [|reflexivity].
          apply str_mem_false in Hk. now rewrite Hk. }
      reflexivity. }
  rewrite (G ks N). f_equal. clear G.
  induction l as [|r l IH]; [reflexivity|]. cbn [filter].
  rewrite (proj2 (str_mem_In (key r) ks) (C r (or_introl eq_refl))).
  f_equal. apply IH. intros x Hx. apply C. now right.
Qed.

Lemma filter_comm {A : Type} (p q : A -> bool) (l : list A) :
  filter p (filter q l) = filter q (filter p l).
Proof.
  induction l as [|a l IH]; [reflexivity|]. cbn [filter].
  destruct (p a) eqn:P, (q a) eqn:Q; cbn [filter]; rewrite ?P, ?Q, IH;
    reflexivity.
Qed.

(** X13.  The per-season table of the team page is never in error.  It has
    one entry for each season in which the team played, in increasing order
    of the season; every entry has at least one game and no more wins than
    games; and the games and the wins of the entries add up to the "total
    games" and "wins" counters of the page. *)
Theorem X13_performance_por_temporada :
  forall (d : DataFrame) (time : string),
    exists l,
      performance_data d time = Ok l
      /\ map perf_Temporada l
         = sorted (unique (map Temporada (rows (jogos_time d time))))
      /\ Forall (fun p => 0 < perf_Jogos p
                          /\ 0 <= perf_Vitorias p <= perf_Jogos p) l
      /\ soma (map perf_Jogos l) = len (rows (jogos_time d time))
      /\ soma (map perf_Vitorias l) = vitorias time (jogos_time d time).
Proof.
  intros d time. eexists. split; [apply performance_data_eq|].
  set (jogos := jogos_time d time).
  set (ks := sorted (unique (map Temporada (rows jogos)))).
  assert (N : NoDup ks).
  { unfold ks. apply (Permutation_NoDup (l := unique (map Temporada
                                                        (rows jogos))));
      [symmetry; apply sort_by_perm | apply unique_by_NoDup, String.eqb_eq]. }
  split; [|split; [|split]].
  - rewrite map_map. unfold entrada_temporada. cbn [perf_Temporada].
    apply map_id.
  - apply Forall_forall. intros p Hp. apply in_map_iff in Hp.
    destruct Hp as [temp [<- Hin]].
    unfold entrada_temporada. cbn [perf_Jogos perf_Vitorias].
    unfold ks in Hin. rewrite sorted_In, unique_In in Hin.
    apply temporada_pos in Hin.
    pose proof (vitorias_empates_le time (jogos_da_temporada jogos temp)).
    pose proof (vitorias_nonneg time (jogos_da_temporada jogos temp)).
    pose proof (empates_nonneg (jogos_da_temporada jogos temp)).
    unfold jogos_da_temporada in *. lia.
  - rewrite map_map. unfold entrada_temporada. cbn [perf_Jogos].
    unfold jogos_da_temporada, mask. cbn [rows].
    apply (soma_por_chave Temporada ks (rows jogos) N).
    intros r Hr. unfold ks. rewrite sorted_In, unique_In.
    now apply in_map.
  - rewrite map_map. unfold entrada_temporada. cbn [perf_Vitorias].
    unfold vitorias, jogos_da_temporada, mask. cbn [rows].
    rewrite <- (soma_por_chave Temporada ks
                  (filter (venceu time) (rows jogos)) N).
    + f_equal. apply map_ext. intros k. now rewrite filter_comm.
    + intros r Hr. apply filter_In in Hr. unfold ks.
      rewrite sorted_In, unique_In. now apply in_map.
Qed.

(** Two sorted lists of strings with the same elements, each once, are the
    same list. *)
Lemma sorted_lists_eq (l1 l2 : list string) :
  StronglySorted (fun a b => String.leb a b = true) l1 ->
  StronglySorted (fun a b => String.leb a b = true) l2 ->
  Permutation l1 l2 -> l1 = l2.
Proof.
  intros S1. revert l2. induction S1 as [|a l1 S1 IH Ha]; intros l2 S2 P.
  - apply Permutation_nil in P. now subst.
  - destruct S2 as [|b l2 S2 Hb].
    + apply Permutation_sym, Permutation_nil in P. discriminate.
    + assert (E : a = b).
      { rewrite Forall_forall in Ha, Hb.
        assert (Hab : In a (b :: l2))
          by (apply (Permutation_in _ P); now left).
        assert (Hba : In b (a :: l1))
          by (apply (Permutation_in _ (Permutation_sym P)); now left).
        destruct Hab as [<- | Hab]; [reflexivity|].
        destruct Hba as [<- | Hba]; [reflexivity|].
        apply String.leb_antisym; [now apply Ha | now apply Hb]. }
      subst b. f_equal. apply IH; [exact S2|].
      now apply Permutation_cons_inv in P.
Qed.

Lemma sorted_same_elements (l1 l2 : list string) :
  NoDup l1 -> NoDup l2 -> (forall x, In x l1 <-> In x l2) ->
  sorted l1 = sorted l2.
Proof.
  intros N1 N2 H.
  apply sorted_lists_eq.
  - apply sort_by_sorted; [exact String.leb_total | exact string_leb_trans].
  - apply sort_by_sorted; [exact String.leb_total | exact string_leb_trans].
  - unfold sorted. rewrite !sort_by_perm. now apply NoDup_Permutation.
Qed.

Lemma evolucao_loop_eq (jogos : DataFrame) (time : string)
  (temporadas : list string) :
  evolucao_loop jogos time temporadas
  = Ok (map (fun temp =>
               (temp, time,
                perf_Aproveitamento (entrada_temporada jogos time temp)))
            (filter (fun temp =>
                       len (rows (jogos_da_temporada jogos temp)) >? 0)
                    temporadas)).
Proof.
  induction temporadas as [|temp rest IH]; [reflexivity|].
  cbn [evolucao_loop filter].
  change (mask (fun r => String.eqb (Temporada r) temp) jogos)
    with (jogos_da_temporada jogos temp).
  destruct (len (rows (jogos_da_temporada jogos temp)) >? 0) eqn:G.
  - apply Z.gtb_lt in G. rewrite percentual_value by lia.
    rewrite IH. reflexivity.
  - exact IH.
Qed.

(** X14.  The season-by-season comparison of page 5 shows, for each of its
    two teams, exactly the performance percentages of the per-season table
    of the team page: the same seasons in the same order with the same
    values.  The seasons of the slice in which the team did not play are
    skipped, and neither loop is ever in error. *)
Theorem X14_evolucao_igual_a_performance :
  forall (d : DataFrame) (time : string),
    exists l,
      performance_data d time = Ok l
      /\ evolucao_data d time
         = Ok (map (fun p => (perf_Temporada p, time, perf_Aproveitamento p))
                   l).
Proof.
  intros d time. eexists. split; [apply performance_data_eq|].
  unfold evolucao_data. rewrite evolucao_loop_eq. f_equal.
  rewrite map_map. cbn [perf_Temporada entrada_temporada].
  set (jogos := jogos_time d time).
  assert (E : filter (fun temp =>
                        len (rows (jogos_da_temporada jogos temp)) >? 0)
                     (sorted (unique (map Temporada (rows d))))
              = sorted (unique (map Temporada (rows jogos)))).
  { unfold sorted at 1.
    rewrite (filter_sort_by String.leb string_leb_trans String.leb_total).
    apply sorted_same_elements.
    - apply NoDup_filter, unique_by_NoDup, String.eqb_eq.
    - apply unique_by_NoDup, String.eqb_eq.
    - intros temp. rewrite filter_In, !unique_In. split.
      + intros [_ G]. apply Z.gtb_lt in G.
        unfold jogos_da_temporada, mask, len in G. cbn [rows] in G.
        destruct (filter (fun r => String.eqb (Temporada r) temp)
                         (rows jogos)) as [|r m] eqn:F; [simpl in G; lia|].
        assert (Hr : In r (filter (fun r => String.eqb (Temporada r) temp)
                                  (rows jogos)))
          by (rewrite F; now left).
        apply filter_In in Hr. destruct Hr as [Hr Et].
        apply String.eqb_eq in Et. subst temp. now apply in_map.
      + intros Hin. split.
        * apply in_map_iff in Hin. destruct Hin as [r [<- Hr]].
          apply in_map. unfold jogos, jogos_time, mask in Hr.
          cbn [rows] in Hr. apply filter_In in Hr. tauto.
        * apply Z.gtb_lt. now apply temporada_pos. }
  rewrite E. reflexivity.
Qed.

(* ------------------------------------------------------------------ *)
(** ** The champions frame and the two samples of the t-test *)

Lemma head1_subset (seen : list string) (l : list champion_row)
  (x : champion_row) : In x (head1 seen l) -> In x l.
Proof.
  intros H. destruct (head1_In _ _ _ H) as [_ [l1 [l2 [-> _]]]].
  apply in_or_app. right. now left.
Qed.

Lemma head1_NoDup (seen : list string) (l : list champion_row) :
  NoDup (map ch_Temporada (head1 seen l)).
Proof.
  revert seen. induction l as [|a l IH]; intros seen; simpl; [constructor|].
  destruct (str_mem (ch_Temporada a) seen); [apply IH|].
  simpl. constructor; [|apply IH].
  rewrite in_map_iff. intros [x [E Hx]].
  apply head1_In in Hx. destruct Hx as [Hx _]. apply Hx. left. now symmetry.
Qed.

Lemma head1_sorted (seen : list string) (l : list champion_row) :
  StronglySorted (fun x y => champion_leb x y = true) l ->
  StronglySorted (fun a b => String.leb a b = true)
                 (map ch_Temporada (head1 seen l)).
Proof.
  intros S. revert seen. induction S as [|a l S IH Ha]; intros seen; simpl;
    [constructor|].
  destruct (str_mem (ch_Temporada a) seen); [apply IH|].
  simpl. constructor; [apply IH|].
  rewrite Forall_forall in *. intros s Hs. apply in_map_iff in Hs.
  destruct Hs as [x [<- Hx]]. apply head1_subset in Hx.
  specialize (Ha x Hx). unfold champion_leb in Ha. unfold String.leb.
  destruct (String.compare (ch_Temporada a) (ch_Temporada x));
    [reflexivity | reflexivity | discriminate].
Qed.

Lemma champions_temporadas_In (d : DataFrame) (s : string) :
  In s (map ch_Temporada (champions d)) <-> In s (map Temporada (rows d)).
Proof.
  rewrite !in_map_iff. split.
  - intros [x [<- Hx]]. apply champions_In in Hx.
    apply vitorias_casa_por_temporada_In in Hx.
    destruct Hx as [[r [Hr [Es _]]] _]. now exists r.
  - intros [r [<- Hr]].
    set (y := {| ch_Temporada := Temporada r; ch_Time_Casa := Time_Casa r;
                 ch_Vitoria_Casa :=
                   sum_int64
                     (map Vitoria_Casa
                        (filter (fun r0 =>
                                   pair_eqb (Temporada r0, Time_Casa r0)
                                            (Temporada r, Time_Casa r))
                                (rows d))) |}).
    assert (Hy : In y (vitorias_casa_por_temporada d)).
    { apply vitorias_casa_por_temporada_In. split; [|reflexivity].
      exists r. auto. }
    destruct (champions_every_season d y Hy) as [x [Hx Ex]].
    exists x. auto.
Qed.

(** X15.  The frame [champions] has exactly one row for every season of the
    slice, in increasing order of the season, and the team of each row
    played at home in that season; so the number of champion rows is the
    "seasons" counter of the overview page. *)
Theorem X15_um_campeao_por_temporada :
  forall (d : DataFrame),
    map ch_Temporada (champions d)
    = sorted (unique (map Temporada (rows d)))
    /\ NoDup (map ch_Temporada (champions d))
    /\ len (champions d) = temporadas_nunique d
    /\ Forall (fun x => joga_em_casa d (ch_Temporada x) (ch_Time_Casa x))
              (champions d).
Proof.
  intros d.
  assert (N : NoDup (map ch_Temporada (champions d)))
    by apply head1_NoDup.
  assert (E : map ch_Temporada (champions d)
              = sorted (unique (map Temporada (rows d)))).
  { apply sorted_lists_eq.
    - apply head1_sorted, sort_by_sorted;
        [exact champion_leb_total | exact champion_leb_trans].
    - apply sort_by_sorted;
        [exact String.leb_total | exact string_leb_trans].
    - apply NoDup_Permutation; [exact N| |].
      + apply (Permutation_NoDup (l := unique (map Temporada (rows d))));
          [symmetry; apply sort_by_perm
          | apply unique_by_NoDup, String.eqb_eq].
      + intros s. rewrite champions_temporadas_In, sorted_In, unique_In.
        tauto. }
  split; [exact E|]. split; [exact N|]. split.
  - unfold temporadas_nunique, len. f_equal.
    rewrite <- (length_map ch_Temporada), E.
    apply Permutation_length, sort_by_perm.
  - apply Forall_forall. intros x Hx. apply champions_In in Hx.
    now apply vitorias_casa_por_temporada_In in Hx.
Qed.

Lemma set_Campeao_twice (b b' : bool) (r : Match) :
  set_Campeao b (set_Campeao b' r) = set_Campeao b r.
Proof. reflexivity. Qed.

Lemma vitorias_do_grupo_ext (k : string * string) (l l' : list Match) :
  map (fun r => (Temporada r, Time_Casa r, Vitoria_Casa r)) l'
  = map (fun r => (Temporada r, Time_Casa r, Vitoria_Casa r)) l ->
  map Vitoria_Casa
      (filter (fun r => pair_eqb (Temporada r, Time_Casa r) k) l')
  = map Vitoria_Casa
      (filter (fun r => pair_eqb (Temporada r, Time_Casa r) k) l).
Proof.
  revert l'. induction l as [|r l IH]; intros [|r' l'] H;
    try discriminate; [reflexivity|].
  cbn [map] in H. injection H as E1 E2 E3 H.
  cbn [filter]. rewrite E1, E2.
  destruct (pair_eqb (Temporada r, Time_Casa r) k); cbn [map];
    rewrite ?E3, (IH l' H); reflexivity.
Qed.

Lemma champions_ignora_Campeao (d d' : DataFrame) :
  map (fun r => (Temporada r, Time_Casa r, Vitoria_Casa r)) (rows d')
  = map (fun r => (Temporada r, Time_Casa r, Vitoria_Casa r)) (rows d) ->
  champions d' = champions d.
Proof.
  intros H. unfold champions. f_equal. f_equal.
  unfold vitorias_casa_por_temporada.
  assert (K : map (fun r => (Temporada r, Time_Casa r)) (rows d')
              = map (fun r => (Temporada r, Time_Casa r)) (rows d)).
  { apply (f_equal (map fst)) in H. rewrite !map_map in H. exact H. }
  rewrite K. apply map_ext. intros k. f_equal. f_equal.
  now apply vitorias_do_grupo_ext.
Qed.

Lemma marcar_campeoes_champions (d : DataFrame) :
  champions (marcar_campeoes d) = champions d.
Proof.
  apply champions_ignora_Campeao. unfold marcar_campeoes. cbn [rows].
  rewrite map_map. reflexivity.
Qed.

(** X16.  Marking the champions again changes nothing: the champions are
    computed from the season, the home team and the home-win flag only, so
    the frame after a second assignment of [Campeao] is the frame after the
    first.  After the assignment no row lacks the flag, and the two
    samples of the t-test split the home goals of the slice: every row
    goes to exactly one of them. *)
Theorem X16_marcar_campeoes :
  forall (d : DataFrame),
    marcar_campeoes (marcar_campeoes d) = marcar_campeoes d
    /\ champions (marcar_campeoes d) = champions d
    /\ Forall (fun r => Campeao r <> None) (rows (marcar_campeoes d))
    /\ Permutation (gols_campeoes (marcar_campeoes d)
                    ++ gols_outros (marcar_campeoes d))
                   (map Gols_Time_Casa (rows d))
    /\ gols_campeoes (marcar_campeoes d)
       = map Gols_Time_Casa
           (filter (fun r => e_campeao d (Time_Casa r)) (rows d)).
Proof.
  intros d.
  pose proof (marcar_campeoes_champions d) as C.
  split; [|split; [exact C|split; [|split]]].
  - unfold marcar_campeoes at 1 3. cbn [rows columns]. f_equal.
    + unfold marcar_campeoes. cbn [columns].
      apply setitem_present. rewrite str_mem_setitem, String.eqb_refl.
      apply orb_true_r.
    + unfold e_campeao. rewrite C.
      unfold marcar_campeoes. cbn [rows]. rewrite map_map.
      apply map_ext. intros r. reflexivity.
  - unfold marcar_campeoes. cbn [rows]. apply Forall_forall.
    intros r Hr. apply in_map_iff in Hr. destruct Hr as [r0 [<- _]].
    discriminate.
  - unfold gols_campeoes, gols_outros, mask, marcar_campeoes. cbn [rows].
    induction (rows d) as [|r l IH]; [reflexivity|].
    cbn [map filter]. cbn [Campeao set_Campeao truthy].
    destruct (e_campeao d (Time_Casa r)); cbn [negb map app].
    + now constructor.
    + rewrite <- IH. cbn [Gols_Time_Casa set_Campeao].
      apply Permutation_sym, Permutation_middle.
  - unfold gols_campeoes, mask, marcar_campeoes. cbn [rows].
    induction (rows d) as [|r l IH]; [reflexivity|].
    cbn [map filter]. cbn [Campeao set_Campeao truthy].
    destruct (e_campeao d (Time_Casa r)); cbn [map]; now rewrite IH.
Qed.

(* ------------------------------------------------------------------ *)
(** ** The counts of the z-test tab *)






(* ------------------------------------------------------------------ *)
(** ** Dates: parsing and formatting *)

Lemma forallb_intervalo (f : Z -> bool) (lo : Z) (n : nat) :
  forallb f (intervalo lo n) = true ->
  forall x, lo <= x < lo + Z.of_nat n -> f x = true.
Proof.
  intros H x Hx. rewrite forallb_forall in H. apply H.
  unfold intervalo. apply in_map_iff. exists (Z.to_nat (x - lo)).
  split; [lia|]. apply in_seq. lia.
Qed.

Lemma option_Z_eqb_eq (a b : option Z) : option_Z_eqb a b = true -> a = b.
Proof.
  destruct a, b; simpl; try discriminate; [|reflexivity].
  intros H. apply Z.eqb_eq in H. now subst.
Qed.

Lemma digit_range (c : ascii) (x : Z) : digit c = Some x -> 0 <= x <= 9.
Proof.
  unfold digit.
  destruct ((48 <=? Z.of_N (N_of_ascii c)) && (Z.of_N (N_of_ascii c) <=? 57))
    eqn:E; [|discriminate].
  apply andb_true_iff in E. destruct E as [E1 E2].
  apply Z.leb_le in E1, E2. intros H. inversion H. lia.
Qed.

Lemma digit_char_not_slash (k : Z) :
  0 <= k <= 9 -> Ascii.eqb (digit_char k) "/"%char = false.
Proof.
  intros H. apply negb_true_iff.
  apply (forallb_intervalo
           (fun k => negb (Ascii.eqb (digit_char k) "/"%char)) 0 10);
    [vm_compute; reflexivity | lia].
Qed.

Lemma digit_digit_char (k : Z) :
  0 <= k <= 9 -> digit (digit_char k) = Some k.
Proof.
  intros H. apply option_Z_eqb_eq.
  apply (forallb_intervalo
           (fun k => option_Z_eqb (digit (digit_char k)) (Some k)) 0 10);
    [vm_compute; reflexivity | lia].
Qed.

Lemma directive_d_strftime (x : Z) :
  1 <= x <= 31 ->
  directive_d [digit_char (x / 10); digit_char (x mod 10)] = Some x.
Proof.
  intros H. apply option_Z_eqb_eq.
  apply (forallb_intervalo
           (fun x => option_Z_eqb
                       (directive_d [digit_char (x / 10);
                                     digit_char (x mod 10)]) (Some x))
           1 31);
    [vm_compute; reflexivity | lia].
Qed.

Lemma directive_m_strftime (x : Z) :
  1 <= x <= 12 ->
  directive_m [digit_char (x / 10); digit_char (x mod 10)] = Some x.
Proof.
  intros H. apply option_Z_eqb_eq.
  apply (forallb_intervalo
           (fun x => option_Z_eqb
                       (directive_m [digit_char (x / 10);
                                     digit_char (x mod 10)]) (Some x))
           1 12);
    [vm_compute; reflexivity | lia].
Qed.

Lemma directive_Y_strftime (y : Z) :
  1000 <= y <= 9999 ->
  directive_Y [digit_char (y / 1000); digit_char (y / 100 mod 10);
               digit_char (y / 10 mod 10); digit_char (y mod 10)]
  = Some y.
Proof.
  intros H. apply option_Z_eqb_eq.
  apply (forallb_intervalo
           (fun y => option_Z_eqb
                       (directive_Y [digit_char (y / 1000);
                                     digit_char (y / 100 mod 10);
                                     digit_char (y / 10 mod 10);
                                     digit_char (y mod 10)]) (Some y))
           1000 (Z.to_nat 9000));
    [vm_compute; reflexivity | lia].
Qed.

Lemma split_slash_strftime (d : date) :
  0 <= day d < 100 -> 0 <= month d < 100 -> 0 <= year d < 10000 ->
  split_slash [] (strftime d)
  = [ [digit_char (day d / 10); digit_char (day d mod 10)];
      [digit_char (month d / 10); digit_char (month d mod 10)];
      [digit_char (year d / 1000); digit_char (year d / 100 mod 10);
       digit_char (year d / 10 mod 10); digit_char (year d mod 10)] ].
Proof.
  intros Hd Hm Hy. unfold strftime. cbn [split_slash].
  rewrite !digit_char_not_slash.
  - reflexivity.
  - pose proof (Z.mod_pos_bound (year d) 10). lia.
  - pose proof (Z.mod_pos_bound (year d / 10) 10). lia.
  - pose proof (Z.mod_pos_bound (year d / 100) 10). lia.
  - split; [apply Z.div_pos; lia | ].
    apply Z.lt_succ_r, Z.div_lt_upper_bound; lia.
  - pose proof (Z.mod_pos_bound (month d) 10). lia.
  - split; [apply Z.div_pos; lia | ].
    apply Z.lt_succ_r, Z.div_lt_upper_bound; lia.
  - pose proof (Z.mod_pos_bound (day d) 10). lia.
  - split; [apply Z.div_pos; lia | ].
    apply Z.lt_succ_r, Z.div_lt_upper_bound; lia.
Qed.

Lemma directive_d_range (f : list ascii) (x : Z) :
  directive_d f = Some x -> 1 <= x <= 31.
Proof.
  unfold directive_d. cbv zeta.
  destruct f as [|a [|b [|c f]]]; try discriminate.
  - destruct (digit a) as [v|] eqn:Da; [|discriminate].
    apply digit_range in Da.
    destruct (Z.leb_spec 1 v); [|discriminate]. intros E. apply (f_equal (fun o => match o with Some z => z | None => 0 end)) in E.
      cbv beta iota in E. lia.
  - destruct (digit a) as [v|] eqn:Da, (digit b) as [w|] eqn:Db;
      try discriminate.
    + destruct (Z.leb_spec 1 (10 * v + w)), (Z.leb_spec (10 * v + w) 31);
        cbn [andb]; try discriminate. intros E. apply (f_equal (fun o => match o with Some z => z | None => 0 end)) in E.
      cbv beta iota in E. lia.
    + apply digit_range in Db.
      destruct (Ascii.eqb a " "%char); cbn [andb]; [|discriminate].
      destruct (Z.leb_spec 1 w); [|discriminate].
      intros E. apply (f_equal (fun o => match o with Some z => z | None => 0 end)) in E.
      cbv beta iota in E. lia.
Qed.

Lemma directive_m_range (f : list ascii) (x : Z) :
  directive_m f = Some x -> 1 <= x <= 12.
Proof.
  unfold directive_m. cbv zeta.
  destruct f as [|a [|b [|c f]]]; try discriminate.
  - destruct (digit a) as [v|] eqn:Da; [|discriminate].
    apply digit_range in Da.
    destruct (Z.leb_spec 1 v); [|discriminate]. intros E. apply (f_equal (fun o => match o with Some z => z | None => 0 end)) in E.
      cbv beta iota in E. lia.
  - destruct (digit a) as [v|] eqn:Da, (digit b) as [w|] eqn:Db;
      try discriminate.
    destruct (Z.leb_spec 1 (10 * v + w)), (Z.leb_spec (10 * v + w) 12);
      cbn [andb]; try discriminate. intros E. apply (f_equal (fun o => match o with Some z => z | None => 0 end)) in E.
      cbv beta iota in E. lia.
Qed.

Lemma days_in_month_le (y m : Z) : days_in_month y m <= 31.
Proof.
  unfold days_in_month.
  destruct (m =? 2); [destruct (is_leap y); lia|].
  destruct ((m =? 4) || (m =? 6) || (m =? 9) || (m =? 11)); lia.
Qed.

Lemma strptime_valida (s : string) (dt : date) :
  strptime s = Ok dt -> data_valida dt.
Proof.
  unfold strptime.
  destruct (split_slash [] s) as [|fd [|fm [|fy [|? ?]]]]; try discriminate.
  destruct (directive_d fd) as [dd|] eqn:Dd; [|discriminate].
  destruct (directive_m fm) as [mm|] eqn:Dm; [|discriminate].
  destruct (directive_Y fy) as [yy|]; [|discriminate].
  destruct ((1 <=? yy) && (dd <=? days_in_month yy mm)) eqn:C;
    [|discriminate].
  destruct (in_timestamp_bounds {| year := yy; month := mm; day := dd |})
    eqn:B; [|discriminate].
  intros H. inversion H; subst dt. clear H.
  apply andb_true_iff in C. destruct C as [_ C]. apply Z.leb_le in C.
  apply directive_d_range in Dd. apply directive_m_range in Dm.
  unfold data_valida. cbn [year month day]. repeat split; try lia.
  exact B.
Qed.

Lemma strftime_strptime (dt : date) :
  data_valida dt -> strptime (strftime dt) = Ok dt.
Proof.
  intros [Hm [Hd Hb]].
  pose proof (days_in_month_le (year dt) (month dt)) as Hdim.
  assert (Hy : 1677 <= year dt <= 2262).
  { unfold in_timestamp_bounds in Hb. apply andb_true_iff in Hb.
    destruct Hb as [B1 B2]. apply Z.leb_le in B1, B2. lia. }
  unfold strptime.
  rewrite split_slash_strftime by lia.
  rewrite directive_d_strftime, directive_m_strftime, directive_Y_strftime
    by lia.
  replace (1 <=? year dt) with true by (symmetry; apply Z.leb_le; lia).
  replace (day dt <=? days_in_month (year dt) (month dt)) with true
    by (symmetry; apply Z.leb_le; lia).
  cbn [andb]. destruct dt as [y m d']. cbn [year month day] in *.
  now rewrite Hb.
Qed.

(** X18.  A date that [load_data] accepts is a calendar date within the
    range of a timestamp, and it survives the way the head-to-head listing
    prints it: formatting it with [strftime('%d/%m/%Y')] and parsing the
    text again gives the same date.  This holds for the date of every row
    of a loaded table. *)
Theorem X18_datas_ida_e_volta :
  (forall s dt, strptime s = Ok dt ->
                data_valida dt /\ strptime (strftime dt) = Ok dt)
  /\ (forall dt, data_valida dt -> strptime (strftime dt) = Ok dt)
  /\ (forall csv d,
         load_data csv = Ok d ->
         Forall (fun r => forall dt,
                     Data r = Some dt ->
                     data_valida dt
                     /\ to_datetime (Some (strftime dt)) = Ok (Some dt))
                (rows d)).
Proof.
  assert (A : forall s dt, strptime s = Ok dt ->
                           data_valida dt /\ strptime (strftime dt) = Ok dt).
  { intros s dt H. apply strptime_valida in H.
    split; [exact H | now apply strftime_strptime]. }
  split; [exact A|]. split; [exact strftime_strptime|].
  intros csv d H. apply load_data_inv in H.
  destruct H as [_ [datas [Hd ->]]].
  assert (F : Forall2 (fun (raw : RawRow) r =>
                         forall dt, Data r = Some dt ->
                                    data_valida dt
                                    /\ to_datetime (Some (strftime dt))
                                       = Ok (Some dt))
                      (raw_rows csv) (carregado csv datas)).
  { apply Forall2_carregado_datas; [exact Hd|].
    intros raw dt0 Hdt dt E. cbn [features Data] in E. subst dt0.
    destruct (Date raw) as [s|]; [|discriminate].
    simpl in Hdt. destruct (strptime s) as [dt'|] eqn:S; [|discriminate].
    simpl in Hdt. inversion Hdt; subst dt'.
    destruct (A s dt S) as [V R]. split; [exact V|].
    simpl. now rewrite R. }
  clear Hd. induction F; constructor; auto.
Qed.

Lemma X18_datas_ida_e_volta_witness :
  strptime (strftime {| year := 1999; month := 8; day := 14 |})
  = Ok {| year := 1999; month := 8; day := 14 |}.
Proof.
  apply (proj2 (proj1 X18_datas_ida_e_volta "14/8/1999"
                  {| year := 1999; month := 8; day := 14 |}
                  ltac:(vm_compute; reflexivity))).
Defined.

Example strptime_sem_zeros :
  strptime "14/8/1999" = Ok {| year := 1999; month := 8; day := 14 |}
  /\ strftime {| year := 1999; month := 8; day := 14 |} = "14/08/1999".
Proof. split; vm_compute; reflexivity. Qed.

(* ------------------------------------------------------------------ *)
(** ** The minimum-season filter of the exploratory page *)

Lemma filter_all {A : Type} (p : A -> bool) (l : list A) :
  (forall x, In x l -> p x = true) -> filter p l = l.
Proof.
  induction l as [|a l IH]; intros H; [reflexivity|]. cbn [filter].
  rewrite (H a (or_introl eq_refl)). f_equal. apply IH.
  intros x Hx. apply H. now right.
Qed.

(** X19.  The minimum-season filter keeps the rows whose season is not
    before the selected one.  With the first option of the select box (the
    earliest season of the slice, the default) it keeps the whole slice;
    for every option it keeps at least one row; and filtering with a later
    minimum after an earlier one is filtering with the later one. *)
Theorem X19_df_filtrado :
  forall (d : DataFrame),
    (forall tmin rest,
        temporadas_opcoes d = tmin :: rest -> df_filtrado d tmin = d)
    /\ (forall t, In t (temporadas_opcoes d) -> rows (df_filtrado d t) <> [])
    /\ (forall t r, In r (rows (df_filtrado d t))
                    <-> In r (rows d) /\ String.leb t (Temporada r) = true)
    /\ (forall t1 t2,
           String.leb t1 t2 = true ->
           df_filtrado (df_filtrado d t1) t2 = df_filtrado d t2).
Proof.
  intros d. split; [|split; [|split]].
  - intros tmin rest E.
    pose proof (sort_by_sorted String.leb String.leb_total string_leb_trans
                  (unique (map Temporada (rows d)))) as S.
    fold (sorted (unique (map Temporada (rows d)))) in S.
    fold (temporadas_opcoes d) in S. rewrite E in S.
    apply StronglySorted_inv in S. destruct S as [_ S].
    rewrite Forall_forall in S.
    unfold df_filtrado, mask. destruct d as [cols rs]. cbn [columns rows] in *.
    f_equal. apply filter_all. intros r Hr.
    assert (Hin : In (Temporada r) (temporadas_opcoes
                                      {| columns := cols; rows := rs |})).
    { unfold temporadas_opcoes. rewrite sorted_In, unique_In.
      now apply in_map. }
    rewrite E in Hin. destruct Hin as [<- | Hin];
      [apply string_leb_refl | now apply S].
  - intros t Ht. unfold temporadas_opcoes in Ht.
    rewrite sorted_In, unique_In, in_map_iff in Ht.
    destruct Ht as [r [<- Hr]]. intros E.
    assert (Hin : In r (rows (df_filtrado d (Temporada r)))).
    { unfold df_filtrado, mask. cbn [rows]. apply filter_In.
      split; [exact Hr | apply string_leb_refl]. }
    rewrite E in Hin. destruct Hin.
  - intros t r. unfold df_filtrado, mask. cbn [rows]. apply filter_In.
  - intros t1 t2 H12. unfold df_filtrado, mask. cbn [columns rows].
    f_equal. apply filter_filter_sub. intros r H2.
    exact (string_leb_trans _ _ _ H12 H2).
Qed.

Lemma X19_df_filtrado_witness :
  df_filtrado df_exemplo "1999/00" = df_exemplo
  /\ df_filtrado (df_filtrado df_exemplo "1999/00") "2000/01"
     = df_filtrado df_exemplo "2000/01".
Proof.
  split.
  - apply (proj1 (X19_df_filtrado df_exemplo) "1999/00" ["2000/01"]).
    vm_compute. reflexivity.
  - apply (proj2 (proj2 (proj2 (X19_df_filtrado df_exemplo)))).
    vm_compute. reflexivity.
Defined.

(* ------------------------------------------------------------------ *)
(** ** The derived totals and the completeness flag *)




(* ------------------------------------------------------------------ *)
(** ** The last five head-to-head games *)

Lemma date_leb_total (x y : date) : date_leb x y = true \/ date_leb y x = true.
Proof.
  unfold date_leb.
  destruct (Z.ltb_spec (year x) (year y)); [now left|].
  destruct (Z.ltb_spec (year y) (year x)); [now right|].
  destruct (Z.ltb_spec (month x) (month y)); [now left|].
  destruct (Z.ltb_spec (month y) (month x)); [now right|].
  destruct (Z.leb_spec (day x) (day y)); [now left|].
  right. apply Z.leb_le. lia.
Qed.

Lemma date_leb_trans (x y z : date) :
  date_leb x y = true -> date_leb y z = true -> date_leb x z = true.
Proof.
  unfold date_leb.
  destruct (Z.ltb_spec (year x) (year y));
    destruct (Z.ltb_spec (year y) (year x));
    destruct (Z.ltb_spec (month x) (month y));
    destruct (Z.ltb_spec (month y) (month x));
    destruct (Z.ltb_spec (year y) (year z));
    destruct (Z.ltb_spec (year z) (year y));
    destruct (Z.ltb_spec (month y) (month z));
    destruct (Z.ltb_spec (month z) (month y));
    destruct (Z.ltb_spec (year x) (year z));
    destruct (Z.ltb_spec (year z) (year x));
    destruct (Z.ltb_spec (month x) (month z));
    destruct (Z.ltb_spec (month z) (month x));
    try discriminate; try reflexivity; try lia;
    rewrite ?Z.leb_le; lia.
Qed.

Lemma data_geb_total (a b : Match) : data_geb a b = true \/ data_geb b a = true.
Proof.
  unfold data_geb. destruct (Data a) as [x|], (Data b) as [y|]; auto.
  destruct (date_leb_total x y); auto.
Qed.

Lemma data_geb_trans (a b c : Match) :
  data_geb a b = true -> data_geb b c = true -> data_geb a c = true.
Proof.
  unfold data_geb.
  destruct (Data a) as [x|], (Data b) as [y|], (Data c) as [z|];
    try discriminate; try reflexivity.
  intros H1 H2. exact (date_leb_trans _ _ _ H2 H1).
Qed.

Lemma StronglySorted_app_cross {A : Type} (R : A -> A -> Prop)
    (l1 l2 : list A) :
  StronglySorted R (l1 ++ l2)%list ->
  forall x y, In x l1 -> In y l2 -> R x y.
Proof.
  induction l1 as [|a l1 IH]; intros S x y Hx Hy; [destruct Hx|].
  cbn [app] in S. apply StronglySorted_inv in S. destruct S as [S F].
  destruct Hx as [<- | Hx].
  - rewrite Forall_forall in F. apply F. apply in_or_app. now right.
  - now apply IH.
Qed.

(** X21.  Whatever order the sort gives to games of the same date, the
    listing of the last head-to-head games shows min(5, n) of the n games
    between the two teams, each of them a game of the head-to-head slice,
    and no game that is left out is more recent than a listed one: if a
    left-out game has a date, every listed game has a date that is not
    earlier.  The stable arrangement is one of the admissible ones. *)
Theorem X21_ultimos_confrontos :
  forall (d : DataFrame) (t a : string),
    ordenacao_valida (rows (confrontos d t a))
                     (rows (sort_values_Data_desc (confrontos d t a)))
    /\ forall l,
         ordenacao_valida (rows (confrontos d t a)) l ->
         List.length (firstn 5 l)
         = Nat.min 5 (List.length (rows (confrontos d t a)))
         /\ (forall r, In r (firstn 5 l) ->
                       In r (rows d)
                       /\ ((Time_Casa r = t /\ Time_Visitante r = a)
                           \/ (Time_Casa r = a /\ Time_Visitante r = t)))
         /\ (forall x y dy,
                In x (firstn 5 l) -> In y (skipn 5 l) ->
                Data y = Some dy ->
                exists dx, Data x = Some dx /\ date_leb dy dx = true).
Proof.
  intros d t a. split.
  - split.
    + cbn [sort_values_Data_desc rows]. apply sort_by_perm.
    + cbn [sort_values_Data_desc rows].
      apply sort_by_sorted; [exact data_geb_total | exact data_geb_trans].
  - intros l [P S]. split; [|split].
    + rewrite length_firstn. now rewrite (Permutation_length P).
    + intros r Hr.
      assert (Hl : In r l).
      { rewrite <- (firstn_skipn 5 l). apply in_or_app. now left. }
      apply (Permutation_in _ P) in Hl.
      unfold confrontos, mask in Hl. cbn [rows] in Hl.
      apply filter_In in Hl. destruct Hl as [Hd Hm]. split; [exact Hd|].
      unfold em_casa, fora in Hm.
      apply orb_true_iff in Hm.
      destruct Hm as [Hm | Hm]; apply andb_true_iff in Hm;
        destruct Hm as [H1 H2]; apply String.eqb_eq in H1;
        apply String.eqb_eq in H2; auto.
    + intros x y dy Hx Hy Ey.
      rewrite <- (firstn_skipn 5 l) in S.
      pose proof (StronglySorted_app_cross _ _ _ S x y Hx Hy) as G.
      cbv beta in G. unfold data_geb in G. rewrite Ey in G.
      destruct (Data x) as [dx|]; [|discriminate].
      now exists dx.
Qed.

Lemma X21_ultimos_confrontos_witness :
  ordenacao_valida (rows (confrontos df_exemplo "Arsenal" "Chelsea"))
                   (rows (sort_values_Data_desc
                            (confrontos df_exemplo "Arsenal" "Chelsea")))
  /\ List.length (rows (ultimos_confrontos df_exemplo "Arsenal" "Chelsea"))
     = 2%nat.
Proof.
  destruct (X21_ultimos_confrontos df_exemplo "Arsenal" "Chelsea") as [V H].
  split; [exact V|].
  unfold ultimos_confrontos, head. cbn [rows].
  rewrite (proj1 (H _ V)). vm_compute. reflexivity.
Defined.
